(** * web_starter_kit: the error / guard / validation / response core

    A shallow embedding of four TypeScript modules of the repository

      - [src/lib/guards.ts]      (runtime type guards),
      - [src/lib/errors.ts]      (the [AppError] class hierarchy),
      - [src/lib/validation.ts]  (the early-validation helpers),
      - [src/types/api.ts]       (the [ApiResponse] envelope constructors),

    together with the properties stated about them.

    Conventions of the embedding.

    - A JavaScript value is a term of [JSValue].  Numbers are IEEE-754
      binary64 values, i.e. Rocq's primitive [float]; strings are Rocq
      [string]s whose characters are read as the UTF-16 code units
      U+0000..U+00FF (this range is closed under [toLowerCase] and [trim],
      the only string transformations the code uses).
    - An object is a class tag (its prototype) and its own properties in
      insertion order.  The [stack] property of error objects, which is
      implementation defined, is not represented.
    - A call that may throw returns a [Completion]: [Return v] or
      [Throw e].  [try { .. } catch { .. }] is [try_catch].
    - Host functions whose behaviour is outside the repository
      ([new URL(..)], the number-to-string conversion of template
      literals) are section variables. *)

From Stdlib Require Import Bool List Ascii String ZArith Lia Floats.
Import ListNotations.

Local Open Scope string_scope.
Local Open Scope list_scope.

#[local] Set Warnings "-register-all".

(* ================================================================= *)
(** ** JavaScript values *)

Module JS.

(** Prototypes that occur in the modelled code: the two built-in ones
    and the six classes declared in [errors.ts]. *)
Inductive ClassTag : Type :=
| CObject
| CError
| CAppError
| CValidationError
| CNotFoundError
| CUnauthorizedError
| CForbiddenError
| CConflictError.

Inductive JSValue : Type :=
| VUndefined
| VNull
| VBool (b : bool)
| VNumber (x : float)
| VString (s : string)
| VArray (items : list JSValue)
| VObject (cls : ClassTag) (props : list (string * JSValue)).

Definition ClassTag_eqb (a b : ClassTag) : bool :=
  match a, b with
  | CObject, CObject | CError, CError | CAppError, CAppError
  | CValidationError, CValidationError | CNotFoundError, CNotFoundError
  | CUnauthorizedError, CUnauthorizedError
  | CForbiddenError, CForbiddenError | CConflictError, CConflictError => true
  | _, _ => false
  end.

(** The [extends] clauses: [class AppError extends Error],
    [class ValidationError extends AppError], ... *)
Definition superclass (c : ClassTag) : option ClassTag :=
  match c with
  | CObject => None
  | CError => Some CObject
  | CAppError => Some CError
  | CValidationError | CNotFoundError | CUnauthorizedError
  | CForbiddenError | CConflictError => Some CAppError
  end.

(** Walk of the prototype chain, as [instanceof] does. *)
Fixpoint on_chain (fuel : nat) (c target : ClassTag) : bool :=
  ClassTag_eqb c target
  || match fuel, superclass c with
     | S fuel', Some parent => on_chain fuel' parent target
     | _, _ => false
     end.

(** The chain of any class has at most four links. *)
Definition chain_fuel : nat := 4.

(** [v instanceof C] *)
Definition instanceof (v : JSValue) (C : ClassTag) : bool :=
  match v with
  | VObject cls _ => on_chain chain_fuel cls C
  | _ => false
  end.

(** [typeof v] *)
Definition typeof (v : JSValue) : string :=
  match v with
  | VUndefined => "undefined"
  | VNull => "object"
  | VBool _ => "boolean"
  | VNumber _ => "number"
  | VString _ => "string"
  | VArray _ => "object"
  | VObject _ _ => "object"
  end.

(** [v === undefined] and [v === null] *)
Definition is_undefined (v : JSValue) : bool :=
  match v with VUndefined => true | _ => false end.

Definition is_null (v : JSValue) : bool :=
  match v with VNull => true | _ => false end.

(** [Array.isArray(v)] *)
Definition Array_isArray (v : JSValue) : bool :=
  match v with VArray _ => true | _ => false end.

(** [Number.isNaN(v)]: true only for the number NaN. *)
Definition Number_isNaN (v : JSValue) : bool :=
  match v with VNumber x => PrimFloat.is_nan x | _ => false end.

(** [Number.isFinite(v)]: a number that is neither NaN nor infinite. *)
Definition Number_isFinite (v : JSValue) : bool :=
  match v with VNumber x => PrimFloat.is_finite x | _ => false end.

(** Own properties. *)
Definition Props : Type := list (string * JSValue).

Fixpoint get_prop (k : string) (ps : Props) : option JSValue :=
  match ps with
  | [] => None
  | (k', v) :: rest => if String.eqb k k' then Some v else get_prop k rest
  end.

Fixpoint set_prop (k : string) (v : JSValue) (ps : Props) : Props :=
  match ps with
  | [] => [(k, v)]
  | (k', v') :: rest =>
      if String.eqb k k' then (k, v) :: rest else (k', v') :: set_prop k v rest
  end.

(** [o.k]: the own property, [None] when there is none. *)
Definition field (k : string) (o : JSValue) : option JSValue :=
  match o with
  | VObject _ ps => get_prop k ps
  | _ => None
  end.

(** [k in o] restricted to own properties. *)
Definition has_field (k : string) (o : JSValue) : bool :=
  match field k o with Some _ => true | None => false end.

(** The length of a string or array as a JavaScript number; exact below
    2^53, which no JavaScript string or array length exceeds. *)
Definition number_of_nat (n : nat) : float :=
  PrimFloat.of_uint63 (Uint63.of_Z (Z.of_nat n)).

(** Outcome of evaluating a call. *)
Inductive Completion (A : Type) : Type :=
| Return (a : A)
| Throw (e : JSValue).

Arguments Return {A} a.
Arguments Throw {A} e.

Definition bind {A B : Type} (c : Completion A) (k : A -> Completion B)
  : Completion B :=
  match c with
  | Return a => k a
  | Throw e => Throw e
  end.

(** [try { body } catch { handler }] *)
Definition try_catch {A : Type} (body : Completion A)
           (handler : JSValue -> Completion A) : Completion A :=
  match body with
  | Return a => Return a
  | Throw e => handler e
  end.

End JS.

Import JS.

(* ================================================================= *)
(** ** [src/lib/guards.ts] *)

Module Guards.

(** [return value !== null && value !== undefined] *)
Definition isNotNull (value : JSValue) : bool :=
  negb (is_null value) && negb (is_undefined value).

(** [return value !== undefined] *)
Definition isDefined (value : JSValue) : bool :=
  negb (is_undefined value).

(** [return typeof value === 'string'] *)
Definition isString (value : JSValue) : bool :=
  String.eqb (typeof value) "string".

(** [return typeof value === 'number' && !Number.isNaN(value)] *)
Definition isNumber (value : JSValue) : bool :=
  String.eqb (typeof value) "number" && negb (Number_isNaN value).

(** [return typeof value === 'boolean'] *)
Definition isBoolean (value : JSValue) : bool :=
  String.eqb (typeof value) "boolean".

(** [return typeof value === 'object' && value !== null && !Array.isArray(value)] *)
Definition isObject (value : JSValue) : bool :=
  String.eqb (typeof value) "object" && negb (is_null value)
  && negb (Array_isArray value).

(** [return Array.isArray(value)] *)
Definition isArray (value : JSValue) : bool := Array_isArray value.

(** [return value instanceof Error] *)
Definition isError (value : JSValue) : bool := instanceof value CError.

End Guards.

(* ================================================================= *)
(** ** [src/lib/errors.ts] *)

Module Errors.

(** A constructor body transforms [this]. *)
Definition assign (k : string) (v : JSValue) (this : JSValue) : JSValue :=
  match this with
  | VObject cls ps => VObject cls (set_prop k v ps)
  | other => other
  end.

(** [new C(...)]: run the constructor body on a fresh object whose
    prototype is [C.prototype]. *)
Definition new (C : ClassTag) (body : JSValue -> JSValue) : JSValue :=
  body (VObject C []).

(** The built-in [Error(message)] initialiser. *)
Definition Error_init (message : string) (this : JSValue) : JSValue :=
  assign "message" (VString message) this.

Definition Error (message : string) : JSValue :=
  new CError (Error_init message).

(** [constructor(message: string, public code: string,
                 public statusCode: number = 500)
     { super(message); this.name = 'AppError'; ... }]
    The parameter properties [code] and [statusCode] are assigned right
    after [super] returns.  [Error.captureStackTrace] only sets [stack],
    which is not represented. *)
Definition AppError_init (message code : string) (statusCode : option float)
           (this : JSValue) : JSValue :=
  let statusCode :=
    match statusCode with Some s => s | None => 500%float end in
  let this := Error_init message this in
  let this := assign "code" (VString code) this in
  let this := assign "statusCode" (VNumber statusCode) this in
  assign "name" (VString "AppError") this.

Definition AppError (message code : string) (statusCode : option float)
  : JSValue :=
  new CAppError (AppError_init message code statusCode).

(** [super(message, 'VALIDATION_ERROR', 400); this.name = 'ValidationError'] *)
Definition ValidationError_init (message : string) (this : JSValue) : JSValue :=
  let this := AppError_init message "VALIDATION_ERROR" (Some 400%float) this in
  assign "name" (VString "ValidationError") this.

Definition ValidationError (message : string) : JSValue :=
  new CValidationError (ValidationError_init message).

(** [super(`${resource} not found`, 'NOT_FOUND', 404)] *)
Definition NotFoundError_init (resource : string) (this : JSValue) : JSValue :=
  let this :=
    AppError_init (resource ++ " not found") "NOT_FOUND" (Some 404%float) this in
  assign "name" (VString "NotFoundError") this.

Definition NotFoundError (resource : string) : JSValue :=
  new CNotFoundError (NotFoundError_init resource).

(** [constructor(message: string = 'Unauthorized')] *)
Definition UnauthorizedError_init (message : option string) (this : JSValue)
  : JSValue :=
  let message := match message with Some m => m | None => "Unauthorized" end in
  let this := AppError_init message "UNAUTHORIZED" (Some 401%float) this in
  assign "name" (VString "UnauthorizedError") this.

Definition UnauthorizedError (message : option string) : JSValue :=
  new CUnauthorizedError (UnauthorizedError_init message).

(** [constructor(message: string = 'Forbidden')] *)
Definition ForbiddenError_init (message : option string) (this : JSValue)
  : JSValue :=
  let message := match message with Some m => m | None => "Forbidden" end in
  let this := AppError_init message "FORBIDDEN" (Some 403%float) this in
  assign "name" (VString "ForbiddenError") this.

Definition ForbiddenError (message : option string) : JSValue :=
  new CForbiddenError (ForbiddenError_init message).

(** [super(message, 'CONFLICT', 409)] *)
Definition ConflictError_init (message : string) (this : JSValue) : JSValue :=
  let this := AppError_init message "CONFLICT" (Some 409%float) this in
  assign "name" (VString "ConflictError") this.

Definition ConflictError (message : string) : JSValue :=
  new CConflictError (ConflictError_init message).

(** [return error instanceof AppError] *)
Definition isAppError (error : JSValue) : bool := instanceof error CAppError.

End Errors.

(* ================================================================= *)
(** ** The string primitives used by [validation.ts] *)

Module Str.

Definition code (c : ascii) : N := N_of_ascii c.

(** ECMAScript [WhiteSpace] and [LineTerminator] code units below
    U+0100: TAB, LF, VT, FF, CR, SP and NBSP.  This is the set that
    [String.prototype.trim] strips and that [\s] matches. *)
Definition isWhiteSpace (c : ascii) : bool :=
  let n := code c in
  ((9 <=? n) && (n <=? 13) || (n =? 32) || (n =? 160))%N.

(** Lower-case mapping of one code unit: A-Z, and the Latin-1 capitals
    U+00C0..U+00DE except the multiplication sign U+00D7. *)
Definition lower_char (c : ascii) : ascii :=
  let n := code c in
  if ((65 <=? n) && (n <=? 90)
      || (192 <=? n) && (n <=? 222) && negb (n =? 215))%N
  then ascii_of_N (n + 32)
  else c.

(** [s.toLowerCase()] *)
Fixpoint toLowerCase (s : string) : string :=
  match s with
  | EmptyString => EmptyString
  | String c rest => String (lower_char c) (toLowerCase rest)
  end.

(** [s.trimStart()] *)
Fixpoint trimStart (s : string) : string :=
  match s with
  | EmptyString => EmptyString
  | String c rest => if isWhiteSpace c then trimStart rest else s
  end.

(** [s.trimEnd()] *)
Fixpoint trimEnd (s : string) : string :=
  match s with
  | EmptyString => EmptyString
  | String c rest =>
      match trimEnd rest with
      | EmptyString => if isWhiteSpace c then EmptyString else String c EmptyString
      | kept => String c kept
      end
  end.

(** [s.trim()] *)
Definition trim (s : string) : string := trimEnd (trimStart s).

(** No code unit of [s] is white space. *)
Fixpoint no_space (s : string) : bool :=
  match s with
  | EmptyString => true
  | String c rest => negb (isWhiteSpace c) && no_space rest
  end.

(** [xs.includes(x)] on an array of strings. *)
Definition includes (xs : list string) (x : string) : bool :=
  existsb (String.eqb x) xs.

(** [xs.join(sep)] on an array of strings. *)
Definition join (sep : string) (xs : list string) : string :=
  String.concat sep xs.

End Str.

(* ================================================================= *)
(** ** Regular expressions *)

Module RegExp.

(** An element of a character class: a literal or the escape [\s]. *)
Inductive ClassItem : Type :=
| ItemChar (c : ascii)
| ItemSpace.

(** Single-character patterns: a literal (possibly escaped, as [\.])
    and a negated class [[^...]]. *)
Inductive Atom : Type :=
| Lit (c : ascii)
| NegClass (items : list ClassItem).

Inductive Regex : Type :=
| Void
| Eps
| One (a : Atom)
| Cat (r1 r2 : Regex)
| Alt (r1 r2 : Regex)
| Star (r : Regex).

(** [r+] *)
Definition Plus (r : Regex) : Regex := Cat r (Star r).

Definition item_accepts (i : ClassItem) (c : ascii) : bool :=
  match i with
  | ItemChar d => Ascii.eqb c d
  | ItemSpace => Str.isWhiteSpace c
  end.

Definition atom_accepts (a : Atom) (c : ascii) : bool :=
  match a with
  | Lit d => Ascii.eqb c d
  | NegClass items => negb (existsb (fun i => item_accepts i c) items)
  end.

Fixpoint nullable (r : Regex) : bool :=
  match r with
  | Void => false
  | Eps => true
  | One _ => false
  | Cat r1 r2 => nullable r1 && nullable r2
  | Alt r1 r2 => nullable r1 || nullable r2
  | Star _ => true
  end.

(** Brzozowski derivative: what remains to be matched after [c]. *)
Fixpoint deriv (c : ascii) (r : Regex) : Regex :=
  match r with
  | Void => Void
  | Eps => Void
  | One a => if atom_accepts a c then Eps else Void
  | Cat r1 r2 =>
      Alt (Cat (deriv c r1) r2) (if nullable r1 then deriv c r2 else Void)
  | Alt r1 r2 => Alt (deriv c r1) (deriv c r2)
  | Star r1 => Cat (deriv c r1) (Star r1)
  end.

(** Whether the whole of [s] matches [r]. *)
Fixpoint full_match (r : Regex) (s : string) : bool :=
  match s with
  | EmptyString => nullable r
  | String c rest => full_match (deriv c r) rest
  end.

(** [/^r$/.test(s)]: without the [m] flag the anchors tie the match to
    both ends of the input, and [test] only reports whether a match
    exists, so the backtracking order does not matter. *)
Definition test_anchored (r : Regex) (s : string) : bool := full_match r s.

(** Every atom of [r] satisfies [P]. *)
Fixpoint atoms_all (P : Atom -> Prop) (r : Regex) : Prop :=
  match r with
  | Void | Eps => True
  | One a => P a
  | Cat r1 r2 | Alt r1 r2 => atoms_all P r1 /\ atoms_all P r2
  | Star r1 => atoms_all P r1
  end.

(** Syntactic emptiness of the language. *)
Fixpoint void (r : Regex) : bool :=
  match r with
  | Void => true
  | Eps | One _ | Star _ => false
  | Cat r1 r2 => void r1 || void r2
  | Alt r1 r2 => void r1 && void r2
  end.

End RegExp.

(* ================================================================= *)
(** ** [src/lib/validation.ts] *)

Module Validation.

Import Guards Errors.

(** The static type of a value once a guard has narrowed it. *)
Definition as_string (v : JSValue) : string :=
  match v with VString s => s | _ => EmptyString end.

Definition as_number (v : JSValue) : float :=
  match v with VNumber x => x | _ => PrimFloat.nan end.

Definition as_items (v : JSValue) : list JSValue :=
  match v with VArray items => items | _ => [] end.

(** [{ min?: number; max?: number }] *)
Record NumberConstraints : Type :=
  { min : option float; max : option float }.

(** [{ minLength?: number; maxLength?: number }] *)
Record LengthConstraints : Type :=
  { minLength : option float; maxLength : option float }.

(** [bound !== undefined && test(bound)]: the bound, when it is given
    and the test against it holds. *)
Definition violated (bound : option float) (test : float -> bool)
  : option float :=
  match bound with
  | Some b => if test b then Some b else None
  | None => None
  end.

(** [constraints?.k] *)
Definition optional_chain (constraints : option LengthConstraints)
           (k : LengthConstraints -> option float) : option float :=
  match constraints with
  | Some c => k c
  | None => None
  end.

(** [const emailRegex = /^[^\s@]+@[^\s@]+\.[^\s@]+$/] *)
Definition not_space_or_at : RegExp.Regex :=
  RegExp.One (RegExp.NegClass [RegExp.ItemSpace; RegExp.ItemChar "@"%char]).

Definition emailRegex : RegExp.Regex :=
  RegExp.Cat (RegExp.Plus not_space_or_at)
    (RegExp.Cat (RegExp.One (RegExp.Lit "@"%char))
       (RegExp.Cat (RegExp.Plus not_space_or_at)
          (RegExp.Cat (RegExp.One (RegExp.Lit "."%char))
             (RegExp.Plus not_space_or_at)))).

Section Helpers.

(** [new URL(s)]: returns the parsed URL or throws. *)
Variable URL_new : string -> Completion JSValue.

(** The conversion a template literal applies to a number. *)
Variable Number_toString : float -> string.

Definition validateRequired (value : JSValue) (fieldName : string)
  : Completion JSValue :=
  if negb (isNotNull value)
  then Throw (ValidationError (fieldName ++ " is required"))
  else Return value.

Definition validateEmail (email : JSValue) : Completion JSValue :=
  if negb (isString email)
  then Throw (ValidationError "Email must be a string")
  else
    if negb (RegExp.test_anchored emailRegex (as_string email))
    then Throw (ValidationError "Invalid email format")
    else Return (VString (Str.trim (Str.toLowerCase (as_string email)))).

Definition validateUrl (url : JSValue) : Completion JSValue :=
  if negb (isString url)
  then Throw (ValidationError "URL must be a string")
  else
    try_catch
      (bind (URL_new (as_string url)) (fun _ => Return url))
      (fun _ => Throw (ValidationError "Invalid URL format")).

Definition validateStringLength (value : JSValue) (fieldName : string)
           (constraints : NumberConstraints) : Completion JSValue :=
  if negb (isString value)
  then Throw (ValidationError (fieldName ++ " must be a string"))
  else
    let len := number_of_nat (String.length (as_string value)) in
    match violated (min constraints) (fun m => PrimFloat.ltb len m) with
    | Some m =>
        Throw (ValidationError
                 (fieldName ++ " must be at least " ++ Number_toString m
                  ++ " characters"))
    | None =>
        match violated (max constraints) (fun m => PrimFloat.ltb m len) with
        | Some m =>
            Throw (ValidationError
                     (fieldName ++ " must be at most " ++ Number_toString m
                      ++ " characters"))
        | None => Return value
        end
    end.

Definition validateNumberRange (value : JSValue) (fieldName : string)
           (constraints : NumberConstraints) : Completion JSValue :=
  if negb (String.eqb (typeof value) "number") || Number_isNaN value
  then Throw (ValidationError (fieldName ++ " must be a number"))
  else
    let x := as_number value in
    match violated (min constraints) (fun m => PrimFloat.ltb x m) with
    | Some m =>
        Throw (ValidationError
                 (fieldName ++ " must be at least " ++ Number_toString m))
    | None =>
        match violated (max constraints) (fun m => PrimFloat.ltb m x) with
        | Some m =>
            Throw (ValidationError
                     (fieldName ++ " must be at most " ++ Number_toString m))
        | None => Return value
        end
    end.

Definition validateEnum (value : JSValue) (fieldName : string)
           (allowedValues : list string) : Completion JSValue :=
  if negb (isString value)
  then Throw (ValidationError (fieldName ++ " must be a string"))
  else
    if negb (Str.includes allowedValues (as_string value))
    then Throw (ValidationError
                  (fieldName ++ " must be one of: "
                   ++ Str.join ", " allowedValues))
    else Return value.

Definition validateArray (value : JSValue) (fieldName : string)
           (constraints : option LengthConstraints) : Completion JSValue :=
  if negb (Array_isArray value)
  then Throw (ValidationError (fieldName ++ " must be an array"))
  else
    let len := number_of_nat (List.length (as_items value)) in
    match violated (optional_chain constraints minLength)
            (fun m => PrimFloat.ltb len m) with
    | Some m =>
        Throw (ValidationError
                 (fieldName ++ " must contain at least " ++ Number_toString m
                  ++ " items"))
    | None =>
        match violated (optional_chain constraints maxLength)
                (fun m => PrimFloat.ltb m len) with
        | Some m =>
            Throw (ValidationError
                     (fieldName ++ " must contain at most "
                      ++ Number_toString m ++ " items"))
        | None => Return value
        end
    end.

End Helpers.

End Validation.

(* ================================================================= *)
(** ** [src/types/api.ts] *)

Module Api.

(** An optional string argument: [undefined] when it is omitted. *)
Definition optional_string (o : option string) : JSValue :=
  match o with
  | Some s => VString s
  | None => VUndefined
  end.

(** [return { success: true, data }] *)
Definition successResponse (data : JSValue) : JSValue :=
  VObject CObject [("success", VBool true); ("data", data)].

(** [return { success: false, error, code }] *)
Definition errorResponse (error : string) (code : option string) : JSValue :=
  VObject CObject
    [("success", VBool false); ("error", VString error);
     ("code", optional_string code)].

End Api.

(* ================================================================= *)
(** ** Vocabulary of the properties *)

Module Props.

Import Guards Errors Validation.

(** The names of the own properties of an object, in order. *)
Definition keys (o : JSValue) : list string :=
  match o with
  | VObject _ ps => List.map fst ps
  | _ => []
  end.

(** The classes that make up the taxonomy: [AppError] and the five
    kinds derived from it. *)
Definition taxonomy : list ClassTag :=
  [CAppError; CValidationError; CNotFoundError; CUnauthorizedError;
   CForbiddenError; CConflictError].

(** A call outcome that is a value, or a thrown [ValidationError]
    object and so an instance of no other concrete kind. *)
Definition only_ValidationError (c : Completion JSValue) : Prop :=
  match c with
  | Return _ => True
  | Throw e =>
      (exists message, e = ValidationError message)
      /\ instanceof e CValidationError = true
      /\ instanceof e CUnauthorizedError = false
      /\ instanceof e CForbiddenError = false
      /\ instanceof e CNotFoundError = false
      /\ instanceof e CConflictError = false
  end.

(** A helper that gives back its own successful output unchanged. *)
Definition idempotent (helper : JSValue -> Completion JSValue) : Prop :=
  forall x y, helper x = Return y -> helper y = Return y.

(** A helper whose result, when there is one, is its argument. *)
Definition returns_its_input (helper : JSValue -> Completion JSValue) : Prop :=
  forall x y, helper x = Return y -> y = x.

(** [constraints.min !== undefined && x < constraints.min] *)
Definition below_min (c : NumberConstraints) (x : float) : Prop :=
  exists m, min c = Some m /\ PrimFloat.ltb x m = true.

(** [constraints.max !== undefined && x > constraints.max] *)
Definition above_max (c : NumberConstraints) (x : float) : Prop :=
  exists m, max c = Some m /\ PrimFloat.ltb m x = true.

Definition unconstrained : NumberConstraints :=
  {| min := None; max := None |}.

(** Stand-ins for the two host functions, used to evaluate the helpers
    on examples: a number rendering, and a URL parser that accepts what
    starts with a letter and contains a colon and throws otherwise. *)
Definition render_opaque (_ : float) : string := "<number>".

Definition is_letter (c : ascii) : bool :=
  let n := Str.code (Str.lower_char c) in ((97 <=? n) && (n <=? 122))%N.

Fixpoint has_colon (s : string) : bool :=
  match s with
  | EmptyString => false
  | String c rest => Ascii.eqb c ":" || has_colon rest
  end.

Definition URL_schematic (s : string) : Completion JSValue :=
  match s with
  | String c rest =>
      if is_letter c && has_colon rest
      then Return (VObject CObject [("href", VString s)])
      else Throw (VObject CError [("message", VString "Invalid URL")])
  | EmptyString => Throw (VObject CError [("message", VString "Invalid URL")])
  end.

End Props.

(* ================================================================= *)
(** ** The language of a regular expression *)

Module RegExpSem.

Import RegExp.

(** [matches r s]: the whole of [s] is a word of [r]. *)
Inductive matches : Regex -> string -> Prop :=
| M_Eps : matches Eps EmptyString
| M_One (a : Atom) (c : ascii) :
    atom_accepts a c = true -> matches (One a) (String c EmptyString)
| M_Cat (r1 r2 : Regex) (s1 s2 : string) :
    matches r1 s1 -> matches r2 s2 -> matches (Cat r1 r2) (s1 ++ s2)
| M_AltL (r1 r2 : Regex) (s : string) :
    matches r1 s -> matches (Alt r1 r2) s
| M_AltR (r1 r2 : Regex) (s : string) :
    matches r2 s -> matches (Alt r1 r2) s
| M_Star0 (r : Regex) : matches (Star r) EmptyString
| M_StarS (r : Regex) (s1 s2 : string) :
    matches r s1 -> matches (Star r) s2 -> matches (Star r) (s1 ++ s2).

(** A code unit that [[^\s@]] accepts. *)
Definition plain_char (c : ascii) : bool :=
  negb (Str.isWhiteSpace c || Ascii.eqb c "@").

(** A string made of such code units only. *)
Fixpoint plain (s : string) : bool :=
  match s with
  | EmptyString => true
  | String c rest => plain_char c && plain rest
  end.


(** The shape [local@domain.tld]: three non-empty plain parts. *)
Definition email_shape (s : string) : Prop :=
  exists l a b : string,
    s = (l ++ "@" ++ a ++ "." ++ b)%string
    /\ l <> EmptyString /\ a <> EmptyString /\ b <> EmptyString
    /\ plain l = true /\ plain a = true /\ plain b = true.

End RegExpSem.

(* ================================================================= *)
(** ** [src/lib/guards.ts]: [assertNever] *)

Module Exhaustive.

Import Errors.

Section AssertNever.

(** [JSON.stringify(x)] as a template literal renders it. *)
Variable JSON_stringify : JSValue -> string.


End AssertNever.

End Exhaustive.

(* ================================================================= *)
(** ** The error classes, by constructor *)

Module Kinds.

Import Errors.

(** The five concrete kinds. *)
Definition concrete_kinds : list ClassTag :=
  [CValidationError; CNotFoundError; CUnauthorizedError; CForbiddenError;
   CConflictError].

(** [constructs K e]: [e] is the result of [new K(...)] for a concrete
    kind [K]. *)
Inductive constructs : ClassTag -> JSValue -> Prop :=
| new_ValidationError (message : string) :
    constructs CValidationError (ValidationError message)
| new_NotFoundError (resource : string) :
    constructs CNotFoundError (NotFoundError resource)
| new_UnauthorizedError (message : option string) :
    constructs CUnauthorizedError (UnauthorizedError message)
| new_ForbiddenError (message : option string) :
    constructs CForbiddenError (ForbiddenError message)
| new_ConflictError (message : string) :
    constructs CConflictError (ConflictError message).



End Kinds.

(* ================================================================= *)
(** ** The route handler of the error-handling guide

    [POST] is the handler the guide gives as the pattern for API routes;
    it is the caller that puts [validateRequired], [isAppError],
    [successResponse] and [errorResponse] together.  The calls to the
    logger are left out, except for the property reads in their
    arguments, which can throw. *)

Module Boundary.

Import Guards Errors Validation Api.

(** The [TypeError] the host throws when a property of [null] or
    [undefined] is read.  [TypeError] extends [Error]; of the modelled
    classes it is an instance of [Error] and [Object] only. *)
Definition host_TypeError : JSValue :=
  VObject CError
    [("message", VString "Cannot read properties of null or undefined")].

(** [o.k] for a property name [k] that is not built in on arrays or
    strings: the own property, [undefined] when there is none, and a
    [TypeError] when [o] is [null] or [undefined]. *)
Definition member (k : string) (o : JSValue) : Completion JSValue :=
  match o with
  | VNull | VUndefined => Throw host_TypeError
  | _ => Return (match field k o with Some v => v | None => VUndefined end)
  end.

(** [error.k] on a caught object. *)
Definition prop (k : string) (o : JSValue) : JSValue :=
  match field k o with Some v => v | None => VUndefined end.

(** [errorResponse(error.message, error.code)] on values read from a
    caught object: the object literal [{ success: false, error, code }]
    stores them as they are. *)
Definition errorResponse_of (error code : JSValue) : JSValue :=
  VObject CObject [("success", VBool false); ("error", error); ("code", code)].

(** The request body [b] carries a property [k] that is neither [null]
    nor [undefined]. *)
Definition supplied (k : string) (b : JSValue) : bool :=
  isNotNull b && isNotNull (prop k b).

Section Handler.

(** The host's [Response] objects and [Response.json(body, { status })],
    which returns a response or throws (a status outside 200..599 is a
    [RangeError]). *)
Variable Response : Type.
Variable Response_json : JSValue -> JSValue -> Completion Response.

(** [await request.json()] *)
Variable request_json : Completion JSValue.

(** [await createUser({ email, name })] *)
Variable createUser : JSValue -> JSValue -> Completion JSValue.

(** The [try] block. *)
Definition POST_attempt : Completion Response :=
  bind request_json (fun body =>
  bind (member "email" body) (fun body_email =>
  bind (validateRequired body_email "email") (fun email =>
  bind (member "name" body) (fun body_name =>
  bind (validateRequired body_name "name") (fun name =>
  bind (createUser email name) (fun user =>
  bind (member "id" user) (fun _ =>
  Response_json (successResponse user) (VNumber 201)))))))).

(** The [catch] block. *)
Definition POST_recover (error : JSValue) : Completion Response :=
  if isAppError error
  then Response_json
         (errorResponse_of (prop "message" error) (prop "code" error))
         (prop "statusCode" error)
  else Response_json (errorResponse "Internal server error" None)
                     (VNumber 500).

Definition POST : Completion Response :=
  try_catch POST_attempt POST_recover.

End Handler.

(** Stand-ins for the host and the business logic, used to evaluate the
    handler on examples: responses as pairs of body and status, a
    [createUser] that returns the new user and one that reports a
    duplicate. *)
Definition Response_pair : Type := (JSValue * JSValue)%type.

Definition Response_json_pair (b s : JSValue) : Completion Response_pair :=
  Return (b, s).

Definition createUser_fresh (email name : JSValue) : Completion JSValue :=
  Return (VObject CObject [("id", VString "u1"); ("email", email);
                           ("name", name)]).

Definition createUser_taken (_ _ : JSValue) : Completion JSValue :=
  Throw (ConflictError "Email already registered").

Definition request_of_Ann : JSValue :=
  VObject CObject [("email", VString "ann@example.com"); ("name", VString "Ann")].

End Boundary.

(* ================================================================= *)
(** ** [src/lib/seo.ts] *)

Module Seo.

(** ['website' | 'article' | 'profile'] *)
Inductive PageType : Type := Website | Article | Profile.

Definition PageType_string (t : PageType) : string :=
  match t with
  | Website => "website"
  | Article => "article"
  | Profile => "profile"
  end.

Definition is_article (t : PageType) : bool :=
  match t with Article => true | _ => false end.

(** [interface SEOProps]: every property is optional; [None] is an
    omitted (or [undefined]) property. *)
Record SEOProps : Type :=
  { title : option string;
    description : option string;
    image : option string;
    url : option string;
    type : option PageType;
    publishedTime : option string;
    authors : option (list string);
    tags : option (list string);
    noindex : option bool }.

(** The argument [{}]. *)
Definition no_props : SEOProps :=
  {| title := None; description := None; image := None; url := None;
     type := None; publishedTime := None; authors := None; tags := None;
     noindex := None |}.

(** Truthiness of an optional string: [undefined] and the empty string
    are falsy. *)
Definition truthy (o : option string) : bool :=
  match o with
  | Some s => negb (String.eqb s "")
  | None => false
  end.

(** [o ? f(o) : fallback] for an optional string [o]. *)
Definition if_truthy (o : option string) (f : string -> string)
           (fallback : string) : string :=
  match o with
  | Some s => if String.eqb s "" then fallback else f s
  | None => fallback
  end.

(** [o || fallback] *)
Definition or_else (o : option string) (fallback : string) : string :=
  if_truthy o (fun s => s) fallback.

(** The text of a truthy optional string. *)
Definition text (o : option string) : string := or_else o "".

(** An object literal: later entries replace earlier ones of the same
    name. *)
Definition literal (entries : list (string * JSValue)) : JSValue :=
  VObject CObject
    (List.fold_left (fun ps kv => set_prop (fst kv) (snd kv) ps) entries []).

(** [...(cond && { entries })]: the entries when [cond] is truthy,
    nothing when it is [false], [undefined] or the empty string. *)
Definition spread_if (cond : bool) (entries : list (string * JSValue))
  : list (string * JSValue) :=
  if cond then entries else [].

Definition strings (xs : list string) : JSValue := VArray (List.map VString xs).

(** [o.k1.k2...] on nested objects. *)
Fixpoint at_path (path : list string) (o : JSValue) : option JSValue :=
  match path with
  | [] => Some o
  | k :: rest =>
      match field k o with
      | Some v => at_path rest v
      | None => None
      end
  end.

(** [a[0]] *)
Definition first_item (a : JSValue) : option JSValue :=
  match a with
  | VArray (x :: _) => Some x
  | _ => None
  end.

(** The parameter default [= {}]. *)
Definition given (props : option SEOProps) : SEOProps :=
  match props with Some p => p | None => no_props end.

Section Site.

(** [process.env.NEXT_PUBLIC_APP_URL] *)
Variable NEXT_PUBLIC_APP_URL : option string.

(** [const siteConfig = { ... }] *)
Definition siteConfig_name : string := "Next.js 15 Starter Kit".
Definition siteConfig_description : string :=
  "Production-ready Next.js 15 starter with Supabase, Prisma, and TypeScript".
Definition siteConfig_url : string :=
  or_else NEXT_PUBLIC_APP_URL "http://localhost:3000".
Definition siteConfig_ogImage : string := "/og-image.jpg".
Definition siteConfig_twitterHandle : string := "@yourtwitterhandle".

Definition generateSEO (props : option SEOProps) : JSValue :=
  let props := given props in
  let type_ := match type props with Some t => t | None => Website end in
  let noindex_ := match noindex props with Some b => b | None => false end in
  let pageTitle :=
    if_truthy (title props) (fun t => t ++ " | " ++ siteConfig_name)%string
              siteConfig_name in
  let pageDescription := or_else (description props) siteConfig_description in
  let pageImage :=
    or_else (image props) (siteConfig_url ++ siteConfig_ogImage)%string in
  let pageUrl :=
    if_truthy (url props) (fun u => siteConfig_url ++ u)%string
              siteConfig_url in
  literal
    ([("title", VString pageTitle);
      ("description", VString pageDescription);
      ("applicationName", VString siteConfig_name)]
     ++ spread_if noindex_
          [("robots", literal [("index", VBool false); ("follow", VBool false)])]
     ++ [("openGraph",
          literal
            ([("type", VString (PageType_string type_));
              ("title", VString pageTitle);
              ("description", VString pageDescription);
              ("url", VString pageUrl);
              ("siteName", VString siteConfig_name);
              ("images",
               VArray
                 [literal [("url", VString pageImage);
                           ("width", VNumber 1200);
                           ("height", VNumber 630);
                           ("alt", VString (or_else (title props)
                                                    siteConfig_name))]])]
             ++ spread_if (is_article type_ && truthy (publishedTime props))
                  [("publishedTime",
                    VString (text (publishedTime props)))]
             ++ spread_if (is_article type_
                           && match authors props with
                              | Some _ => true
                              | None => false
                              end)
                  [("authors",
                    strings (match authors props with
                             | Some a => a
                             | None => []
                             end))]));
         ("twitter",
          literal [("card", VString "summary_large_image");
                   ("title", VString pageTitle);
                   ("description", VString pageDescription);
                   ("images", VArray [VString pageImage]);
                   ("creator", VString siteConfig_twitterHandle)])]
     ++ spread_if (match tags props with Some _ => true | None => false end)
          [("keywords",
            strings (match tags props with Some t => t | None => [] end))]
     ++ [("alternates", literal [("canonical", VString pageUrl)])]).

(** The argument of [generateBlogPostSEO]: [title], [description],
    [slug] and [publishedTime] are required. *)
Record BlogPost : Type :=
  { post_title : string;
    post_description : string;
    post_image : option string;
    post_slug : string;
    post_publishedTime : string;
    post_authors : option (list string);
    post_tags : option (list string) }.

Definition generateBlogPostSEO (post : BlogPost) : JSValue :=
  generateSEO
    (Some {| title := Some (post_title post);
             description := Some (post_description post);
             image := post_image post;
             url := Some ("/blog/" ++ post_slug post)%string;
             type := Some Article;
             publishedTime := Some (post_publishedTime post);
             authors := post_authors post;
             tags := post_tags post;
             noindex := None |}).

End Site.

(** The properties with empty strings read as omitted. *)
Definition drop_empty (o : option string) : option string :=
  if truthy o then o else None.

Definition without_empty_strings (p : SEOProps) : SEOProps :=
  {| title := drop_empty (title p);
     description := drop_empty (description p);
     image := drop_empty (image p);
     url := drop_empty (url p);
     type := type p;
     publishedTime := drop_empty (publishedTime p);
     authors := authors p;
     tags := tags p;
     noindex := noindex p |}.

End Seo.

Import Guards Errors Validation Api Props.

(* ================================================================= *)
(** ** Type guards *)

Section GuardFacts.

Lemma typeof_number (v : JSValue) :
  String.eqb (typeof v) "number" = true <-> exists x, v = VNumber x.
Proof.
  split.
  - destruct v; simpl; intros H; try discriminate H. now exists x.
  - intros [x ->]. reflexivity.
Qed.

Lemma typeof_string (v : JSValue) :
  isString v = true <-> exists s, v = VString s.
Proof.
  unfold isString. split.
  - destruct v; simpl; intros H; try discriminate H. now exists s.
  - intros [s ->]. reflexivity.
Qed.

Lemma isNotNull_iff (v : JSValue) :
  isNotNull v = true <-> v <> VNull /\ v <> VUndefined.
Proof.
  unfold isNotNull. destruct v; simpl; split; intros H;
    try discriminate H; try reflexivity;
    try (split; discriminate); destruct H as [H1 H2]; congruence.
Qed.

Lemma isNumber_iff (v : JSValue) :
  isNumber v = true <-> exists x, v = VNumber x /\ PrimFloat.is_nan x = false.
Proof.
  unfold isNumber. split.
  - intros H. apply andb_true_iff in H as [Ht Hn].
    apply typeof_number in Ht as [x ->]. exists x. split; [reflexivity|].
    simpl in Hn. now apply negb_true_iff in Hn.
  - intros [x [-> Hn]]. simpl. now rewrite Hn.
Qed.

(** C9: [isNotNull v] holds exactly when [v] is neither [null] nor
    [undefined]; [isDefined v] holds exactly when [v] is not
    [undefined], so [isDefined null] holds; [isNumber v] holds exactly
    when [v] is a number other than NaN, so [isNumber NaN] fails. *)
Theorem basic_guards_decide_their_predicates :
  forall v : JSValue,
    (isNotNull v = true <-> v <> VNull /\ v <> VUndefined)
    /\ (isDefined v = true <-> v <> VUndefined)
    /\ (isNumber v = true
        <-> typeof v = "number" /\ Number_isNaN v = false)
    /\ isDefined VNull = true
    /\ isNotNull VNull = false
    /\ isNotNull VUndefined = false
    /\ isNumber (VNumber PrimFloat.nan) = false.
Proof.
  intros v. split; [apply isNotNull_iff|]. split.
  - unfold isDefined. destruct v; simpl; split; intros H;
      try discriminate H; try reflexivity; try discriminate; congruence.
  - split; [|repeat split].
    rewrite isNumber_iff. split.
    + intros [x [-> Hn]]. now split.
    + intros [Ht Hn]. destruct v; simpl in Ht; try discriminate Ht.
      exists x. now split.
Qed.

End GuardFacts.

(* ================================================================= *)
(** ** Error taxonomy *)

Section ErrorFacts.

(** What the [AppError] initialiser leaves on a fresh object. *)
Lemma AppError_init_fields (C : ClassTag) (message code : string)
      (statusCode : float) :
  AppError_init message code (Some statusCode) (VObject C [])
  = VObject C [("message", VString message); ("code", VString code);
               ("statusCode", VNumber statusCode);
               ("name", VString "AppError")].
Proof. reflexivity. Qed.

(** C4: whatever arguments a caller passes, [ValidationError] carries
    (VALIDATION_ERROR, 400), [UnauthorizedError] (UNAUTHORIZED, 401),
    [ForbiddenError] (FORBIDDEN, 403), [NotFoundError] (NOT_FOUND, 404)
    and [ConflictError] (CONFLICT, 409); and the message of
    [NotFoundError resource] is [resource] followed by " not found". *)
Theorem error_kinds_fix_code_and_status :
  (forall message,
      field "code" (ValidationError message) = Some (VString "VALIDATION_ERROR")
      /\ field "statusCode" (ValidationError message) = Some (VNumber 400))
  /\ (forall message,
         field "code" (UnauthorizedError message) = Some (VString "UNAUTHORIZED")
         /\ field "statusCode" (UnauthorizedError message) = Some (VNumber 401))
  /\ (forall message,
         field "code" (ForbiddenError message) = Some (VString "FORBIDDEN")
         /\ field "statusCode" (ForbiddenError message) = Some (VNumber 403))
  /\ (forall resource,
         field "code" (NotFoundError resource) = Some (VString "NOT_FOUND")
         /\ field "statusCode" (NotFoundError resource) = Some (VNumber 404)
         /\ field "message" (NotFoundError resource)
            = Some (VString (resource ++ " not found")))
  /\ (forall message,
         field "code" (ConflictError message) = Some (VString "CONFLICT")
         /\ field "statusCode" (ConflictError message) = Some (VNumber 409)).
Proof.
  repeat split; reflexivity.
Qed.

(** C10: constructed without a message, [UnauthorizedError] has message
    "Unauthorized", code UNAUTHORIZED and status 401, and
    [ForbiddenError] has message "Forbidden", code FORBIDDEN and
    status 403. *)
Theorem default_messages_of_Unauthorized_and_Forbidden :
  (field "message" (UnauthorizedError None) = Some (VString "Unauthorized")
   /\ field "code" (UnauthorizedError None) = Some (VString "UNAUTHORIZED")
   /\ field "statusCode" (UnauthorizedError None) = Some (VNumber 401))
  /\ (field "message" (ForbiddenError None) = Some (VString "Forbidden")
      /\ field "code" (ForbiddenError None) = Some (VString "FORBIDDEN")
      /\ field "statusCode" (ForbiddenError None) = Some (VNumber 403))
  /\ (forall m, field "message" (UnauthorizedError (Some m)) = Some (VString m))
  /\ (forall m, field "message" (ForbiddenError (Some m)) = Some (VString m)).
Proof.
  repeat split; reflexivity.
Qed.

(** The classes from which the prototype chain reaches [AppError]. *)
Lemma on_chain_AppError (cls : ClassTag) :
  on_chain chain_fuel cls CAppError = true <-> In cls taxonomy.
Proof.
  unfold taxonomy. destruct cls; simpl; split; intros H;
    try discriminate H; try reflexivity; intuition discriminate.
Qed.

(** C8: [isAppError] accepts every [AppError] instance, in particular
    every instance of the five concrete kinds, and rejects everything
    else: plain [Error] objects, other objects, arrays and primitives. *)
Theorem isAppError_recognises_the_taxonomy :
  (forall v,
      isAppError v = true
      <-> exists cls ps, v = VObject cls ps /\ In cls taxonomy)
  /\ (forall message code statusCode,
         isAppError (AppError message code statusCode) = true)
  /\ (forall message, isAppError (ValidationError message) = true)
  /\ (forall resource, isAppError (NotFoundError resource) = true)
  /\ (forall message, isAppError (UnauthorizedError message) = true)
  /\ (forall message, isAppError (ForbiddenError message) = true)
  /\ (forall message, isAppError (ConflictError message) = true)
  /\ (forall message, isAppError (Error message) = false)
  /\ isAppError (ValidationError "m") = true
  /\ isAppError (Error "m") = false.
Proof.
  split; [|repeat split].
  intros v. unfold isAppError, instanceof. split.
  - destruct v; intros H; try discriminate H.
    exists cls, props. split; [reflexivity|]. now apply on_chain_AppError.
  - intros [cls [ps [-> Hin]]]. now apply on_chain_AppError.
Qed.

End ErrorFacts.

(* ================================================================= *)
(** ** Response envelope *)

Section EnvelopeFacts.

(** C7: [successResponse d] is the object with exactly the fields
    [success: true] and [data: d], hence without [error] or [code];
    [errorResponse m c] is the object with exactly the fields
    [success: false], [error: m] and [code: c], hence without [data]. *)
Theorem envelope_constructors_build_the_two_shapes :
  (forall d,
      successResponse d = VObject CObject [("success", VBool true); ("data", d)]
      /\ keys (successResponse d) = ["success"; "data"]
      /\ field "success" (successResponse d) = Some (VBool true)
      /\ field "data" (successResponse d) = Some d
      /\ has_field "error" (successResponse d) = false
      /\ has_field "code" (successResponse d) = false)
  /\ (forall m c,
         errorResponse m c
         = VObject CObject [("success", VBool false); ("error", VString m);
                            ("code", optional_string c)]
         /\ keys (errorResponse m c) = ["success"; "error"; "code"]
         /\ field "success" (errorResponse m c) = Some (VBool false)
         /\ field "error" (errorResponse m c) = Some (VString m)
         /\ field "code" (errorResponse m c) = Some (optional_string c)
         /\ has_field "data" (errorResponse m c) = false)
  /\ successResponse (VNumber 42)
     = VObject CObject [("success", VBool true); ("data", VNumber 42)]
  /\ errorResponse "bad" (Some "X")
     = VObject CObject [("success", VBool false); ("error", VString "bad");
                        ("code", VString "X")].
Proof.
  repeat split; reflexivity.
Qed.

End EnvelopeFacts.

(* ================================================================= *)
(** ** Validation helpers *)

Section RequiredFacts.

Lemma ValidationError_message_inj (m1 m2 : string) :
  ValidationError m1 = ValidationError m2 -> m1 = m2.
Proof. intros H. now inversion H. Qed.

(** C5: [validateRequired v f] throws [ValidationError] with message
    [f] followed by " is required" exactly when [v] is [null] or
    [undefined], and returns [v] itself otherwise; the number 0, which
    is falsy but present, is returned. *)
Theorem validateRequired_rejects_exactly_null_and_undefined :
  forall (v : JSValue) (f : string),
    (validateRequired v f = Throw (ValidationError (f ++ " is required"))
     <-> v = VNull \/ v = VUndefined)
    /\ (validateRequired v f = Return v
        <-> v <> VNull /\ v <> VUndefined)
    /\ (validateRequired v f = Throw (ValidationError (f ++ " is required"))
        \/ validateRequired v f = Return v)
    /\ validateRequired (VNumber 0) "x" = Return (VNumber 0)
    /\ validateRequired VNull "x" = Throw (ValidationError "x is required")
    /\ validateRequired VUndefined "x" = Throw (ValidationError "x is required").
Proof.
  intros v f. unfold validateRequired.
  destruct v; simpl; repeat split; intros; try discriminate;
    try reflexivity; try (now left); try (now right);
    try (destruct H; discriminate); try (destruct H; congruence); auto.
Qed.

End RequiredFacts.

(* ----------------------------------------------------------------- *)
(** *** Strings *)

Section StringFacts.

Ltac by_cases_on_char c :=
  destruct c as [[] [] [] [] [] [] [] []]; vm_compute; try reflexivity.

Lemma lower_char_idem (c : ascii) :
  Str.lower_char (Str.lower_char c) = Str.lower_char c.
Proof. by_cases_on_char c. Qed.

Lemma lower_char_space (c : ascii) :
  Str.isWhiteSpace (Str.lower_char c) = Str.isWhiteSpace c.
Proof. by_cases_on_char c. Qed.

Lemma lower_char_at (c : ascii) :
  Ascii.eqb (Str.lower_char c) "@" = Ascii.eqb c "@".
Proof. by_cases_on_char c. Qed.

Lemma lower_char_dot (c : ascii) :
  Ascii.eqb (Str.lower_char c) "." = Ascii.eqb c ".".
Proof. by_cases_on_char c. Qed.

Lemma toLowerCase_idem (s : string) :
  Str.toLowerCase (Str.toLowerCase s) = Str.toLowerCase s.
Proof.
  induction s as [|c s IH]; simpl; [reflexivity|].
  now rewrite lower_char_idem, IH.
Qed.

Lemma trimStart_no_space (s : string) :
  Str.no_space s = true -> Str.trimStart s = s.
Proof.
  destruct s as [|c s]; simpl; [reflexivity|].
  intros H. apply andb_true_iff in H as [Hc _].
  apply negb_true_iff in Hc. now rewrite Hc.
Qed.

Lemma trimEnd_no_space (s : string) :
  Str.no_space s = true -> Str.trimEnd s = s.
Proof.
  induction s as [|c s IH]; simpl; [reflexivity|].
  intros H. apply andb_true_iff in H as [Hc Hs].
  apply negb_true_iff in Hc. rewrite (IH Hs), Hc.
  now destruct s.
Qed.

(** On a string without white space [trim] changes nothing. *)
Lemma trim_no_space (s : string) :
  Str.no_space s = true -> Str.trim s = s.
Proof.
  intros H. unfold Str.trim.
  rewrite (trimStart_no_space s H). now apply trimEnd_no_space.
Qed.

End StringFacts.

(* ----------------------------------------------------------------- *)
(** *** Regular expressions *)

Section RegExpFacts.

Import RegExp.

Lemma atoms_all_deriv (P : Atom -> Prop) (c : ascii) (r : Regex) :
  atoms_all P r -> atoms_all P (deriv c r).
Proof.
  induction r as [| |a|r1 IH1 r2 IH2|r1 IH1 r2 IH2|r IH]; simpl; auto.
  - intros _. now destruct (atom_accepts a c).
  - intros [H1 H2]. repeat split; auto.
    destruct (nullable r1); simpl; auto.
  - intros [H1 H2]. split; auto.
Qed.

Lemma void_not_nullable (r : Regex) : void r = true -> nullable r = false.
Proof.
  induction r as [| |a|r1 IH1 r2 IH2|r1 IH1 r2 IH2|r IH]; simpl;
    try discriminate; auto.
  - intros H. apply orb_true_iff in H as [H|H].
    + now rewrite (IH1 H).
    + rewrite (IH2 H). apply andb_false_r.
  - intros H. apply andb_true_iff in H as [H1 H2].
    now rewrite (IH1 H1), (IH2 H2).
Qed.

Lemma void_deriv (c : ascii) (r : Regex) :
  void r = true -> void (deriv c r) = true.
Proof.
  induction r as [| |a|r1 IH1 r2 IH2|r1 IH1 r2 IH2|r IH]; simpl;
    try discriminate; auto.
  - intros H. apply orb_true_iff in H as [H|H].
    + rewrite (IH1 H). simpl.
      rewrite (void_not_nullable r1 H). reflexivity.
    + rewrite H, orb_true_r. simpl.
      destruct (nullable r1); auto.
  - intros H. apply andb_true_iff in H as [H1 H2].
    now rewrite (IH1 H1), (IH2 H2).
Qed.

Lemma void_no_match (s : string) :
  forall r, void r = true -> full_match r s = false.
Proof.
  induction s as [|c s IH]; simpl; intros r H.
  - now apply void_not_nullable.
  - apply IH. now apply void_deriv.
Qed.

(** A character that no atom of [r] accepts cannot start a match. *)
Lemma deriv_rejected (c : ascii) (r : Regex) :
  atoms_all (fun a => atom_accepts a c = false) r ->
  void (deriv c r) = true.
Proof.
  induction r as [| |a|r1 IH1 r2 IH2|r1 IH1 r2 IH2|r IH]; simpl; auto.
  - intros H. now rewrite H.
  - intros [H1 H2]. rewrite (IH1 H1). simpl.
    destruct (nullable r1); auto.
  - intros [H1 H2]. now rewrite (IH1 H1), (IH2 H2).
  - intros H. now rewrite (IH H).
Qed.

(** If every atom of [r] rejects white space, the strings [r] matches
    contain none. *)
Lemma full_match_no_space (s : string) :
  forall r,
    atoms_all (fun a => forall c, Str.isWhiteSpace c = true ->
                                  atom_accepts a c = false) r ->
    full_match r s = true -> Str.no_space s = true.
Proof.
  induction s as [|c s IH]; simpl; intros r Hr Hm; [reflexivity|].
  destruct (Str.isWhiteSpace c) eqn:Hc; simpl.
  - rewrite void_no_match in Hm; [discriminate|].
    apply deriv_rejected.
    clear - Hr Hc. induction r; simpl in *; intuition.
  - apply (IH (deriv c r)); [|exact Hm]. now apply atoms_all_deriv.
Qed.

(** A character map that no atom of [r] can observe does not change
    derivatives, nor matching. *)
Lemma deriv_respects (f : ascii -> ascii) (c : ascii) (r : Regex) :
  atoms_all (fun a => forall d, atom_accepts a (f d) = atom_accepts a d) r ->
  deriv (f c) r = deriv c r.
Proof.
  induction r as [| |a|r1 IH1 r2 IH2|r1 IH1 r2 IH2|r IH]; simpl; auto.
  - intros H. now rewrite H.
  - intros [H1 H2]. now rewrite (IH1 H1), (IH2 H2).
  - intros [H1 H2]. now rewrite (IH1 H1), (IH2 H2).
  - intros H. now rewrite (IH H).
Qed.

Lemma full_match_toLowerCase (s : string) :
  forall r,
    atoms_all (fun a => forall d, atom_accepts a (Str.lower_char d)
                                  = atom_accepts a d) r ->
    full_match r (Str.toLowerCase s) = full_match r s.
Proof.
  induction s as [|c s IH]; simpl; intros r Hr; [reflexivity|].
  rewrite (deriv_respects Str.lower_char c r Hr).
  apply IH. now apply atoms_all_deriv.
Qed.

End RegExpFacts.

(* ----------------------------------------------------------------- *)
(** *** [validateEmail] *)

Section EmailFacts.

Import RegExp.

Lemma emailRegex_rejects_space :
  atoms_all (fun a => forall c, Str.isWhiteSpace c = true ->
                                atom_accepts a c = false) emailRegex.
Proof.
  assert (Hcls : forall c, Str.isWhiteSpace c = true ->
                           atom_accepts
                             (NegClass [ItemSpace; ItemChar "@"%char]) c = false).
  { intros c Hc. simpl. now rewrite Hc. }
  assert (Hlit : forall d c, Str.isWhiteSpace d = false ->
                             Str.isWhiteSpace c = true ->
                             atom_accepts (Lit d) c = false).
  { intros d c Hd Hc. simpl. destruct (Ascii.eqb_spec c d); [|reflexivity].
    subst. congruence. }
  unfold emailRegex, Plus, not_space_or_at. cbn [atoms_all].
  repeat split; auto.
Qed.

Lemma emailRegex_respects_lower_char :
  atoms_all (fun a => forall d, atom_accepts a (Str.lower_char d)
                                = atom_accepts a d) emailRegex.
Proof.
  assert (Hcls : forall d,
             atom_accepts (NegClass [ItemSpace; ItemChar "@"%char])
                          (Str.lower_char d)
             = atom_accepts (NegClass [ItemSpace; ItemChar "@"%char]) d).
  { intros d. simpl. now rewrite lower_char_space, lower_char_at. }
  unfold emailRegex, Plus, not_space_or_at. cbn [atoms_all].
  repeat split; auto; intros d; cbn [atom_accepts];
    auto using lower_char_at, lower_char_dot.
Qed.

(** An address the pattern accepts contains no white space ... *)
Lemma emailRegex_match_no_space (s : string) :
  test_anchored emailRegex s = true -> Str.no_space s = true.
Proof. apply full_match_no_space, emailRegex_rejects_space. Qed.

(** ... and is accepted in lower case as well. *)
Lemma emailRegex_match_toLowerCase (s : string) :
  test_anchored emailRegex (Str.toLowerCase s) = test_anchored emailRegex s.
Proof. apply full_match_toLowerCase, emailRegex_respects_lower_char. Qed.

Lemma no_space_toLowerCase (s : string) :
  Str.no_space (Str.toLowerCase s) = Str.no_space s.
Proof.
  induction s as [|c s IH]; simpl; [reflexivity|].
  now rewrite lower_char_space, IH.
Qed.

(** The three outcomes of [validateEmail], by the checks it makes. *)
Lemma validateEmail_cases (email : JSValue) :
  (isString email = false
   /\ validateEmail email = Throw (ValidationError "Email must be a string"))
  \/ (exists s, email = VString s
                /\ test_anchored emailRegex s = false
                /\ validateEmail email
                   = Throw (ValidationError "Invalid email format"))
  \/ (exists s, email = VString s
                /\ test_anchored emailRegex s = true
                /\ validateEmail email
                   = Return (VString (Str.trim (Str.toLowerCase s)))).
Proof.
  unfold validateEmail.
  destruct (isString email) eqn:Hs; simpl; [|now left].
  right. apply typeof_string in Hs as [s ->]. simpl.
  destruct (test_anchored emailRegex s) eqn:Ht; simpl.
  - right. now exists s.
  - left. now exists s.
Qed.

(** Since the pattern is tested before the result is trimmed, there is
    never anything left to trim: an accepted address is returned in
    lower case and otherwise as it was given. *)
Lemma validateEmail_accepted (s : string) :
  test_anchored emailRegex s = true ->
  validateEmail (VString s) = Return (VString (Str.toLowerCase s)).
Proof.
  intros Ht. unfold validateEmail. simpl. rewrite Ht. simpl.
  rewrite trim_no_space; [reflexivity|].
  rewrite no_space_toLowerCase. now apply emailRegex_match_no_space.
Qed.

(** Any white space at all, also at either end, makes the address
    invalid. *)
Lemma validateEmail_rejects_white_space (s : string) :
  Str.no_space s = false ->
  validateEmail (VString s) = Throw (ValidationError "Invalid email format").
Proof.
  intros Hs. unfold validateEmail. simpl.
  destruct (test_anchored emailRegex s) eqn:Ht; [|reflexivity].
  apply emailRegex_match_no_space in Ht. congruence.
Qed.

Lemma validateEmail_idempotent : idempotent validateEmail.
Proof.
  intros x y H.
  destruct (validateEmail_cases x)
    as [[_ E]|[[s [_ [_ E]]]|[s [-> [Ht _]]]]];
    try (rewrite E in H; discriminate H).
  rewrite (validateEmail_accepted s Ht) in H.
  injection H as <-.
  rewrite validateEmail_accepted.
  - now rewrite toLowerCase_idem.
  - now rewrite emailRegex_match_toLowerCase.
Qed.

(** C1: on the address "USER@Example.com " with a trailing blank the
    code throws [ValidationError "Invalid email format"]: the pattern
    admits no white space and is tested before [trim] runs.  Without
    the blank the address is returned in lower case; a non-string is
    refused with "Email must be a string" and "not-an-email" with
    "Invalid email format". *)
Theorem validateEmail_refuses_padded_address :
  validateEmail (VString "USER@Example.com ")
  = Throw (ValidationError "Invalid email format")
  /\ validateEmail (VString "USER@Example.com")
     = Return (VString "user@example.com")
  /\ validateEmail (VNumber 123)
     = Throw (ValidationError "Email must be a string")
  /\ validateEmail (VString "not-an-email")
     = Throw (ValidationError "Invalid email format").
Proof.
  repeat split; vm_compute; reflexivity.
Qed.

End EmailFacts.

(* ----------------------------------------------------------------- *)
(** *** [validateNumberRange] *)

Section NumberRangeFacts.

Variable Number_toString : float -> string.

Lemma violated_Some (bound : option float) (test : float -> bool) (m : float) :
  violated bound test = Some m <-> bound = Some m /\ test m = true.
Proof.
  unfold violated. destruct bound as [b|]; [|split; [discriminate|intros [H _]; discriminate H]].
  destruct (test b) eqn:Hb; split.
  - intros H. injection H as <-. now split.
  - intros [H _]. exact H.
  - discriminate.
  - intros [H Ht]. injection H as ->. congruence.
Qed.

(** C3, as the code has it: [validateNumberRange] throws
    [ValidationError] when the value is not of type number or is NaN,
    and when a given [min] (value < min) or [max] (value > max) is
    violated; every other number, the infinities included, is returned
    unchanged. *)
Theorem validateNumberRange_rejects_NaN_and_bound_violations :
  forall (v : JSValue) (f : string) (c : NumberConstraints),
    (isNumber v = false ->
     validateNumberRange Number_toString v f c
     = Throw (ValidationError (f ++ " must be a number")))
    /\ (forall x m,
           v = VNumber x -> PrimFloat.is_nan x = false ->
           min c = Some m -> PrimFloat.ltb x m = true ->
           validateNumberRange Number_toString v f c
           = Throw (ValidationError
                      (f ++ " must be at least " ++ Number_toString m)))
    /\ (forall x,
           v = VNumber x -> PrimFloat.is_nan x = false -> above_max c x ->
           exists message,
             validateNumberRange Number_toString v f c
             = Throw (ValidationError message))
    /\ (forall x,
           v = VNumber x -> PrimFloat.is_nan x = false ->
           ~ below_min c x -> ~ above_max c x ->
           validateNumberRange Number_toString v f c = Return v)
    /\ validateNumberRange Number_toString (VNumber PrimFloat.infinity) f
                           unconstrained
       = Return (VNumber PrimFloat.infinity)
    /\ validateNumberRange Number_toString (VNumber PrimFloat.neg_infinity) f
                           unconstrained
       = Return (VNumber PrimFloat.neg_infinity).
Proof.
  intros v f c. unfold validateNumberRange. repeat split.
  - intros Hn. unfold isNumber in Hn.
    destruct (String.eqb (typeof v) "number"); simpl in *; [|reflexivity].
    apply negb_false_iff in Hn. now rewrite Hn.
  - intros x m -> Hx Hmin Hlt. simpl. rewrite Hx. simpl.
    assert (E : violated (min c) (fun b => PrimFloat.ltb x b) = Some m)
      by now apply violated_Some.
    now rewrite E.
  - intros x -> Hx [m [Hmax Hlt]]. simpl. rewrite Hx. simpl.
    destruct (violated (min c) _); [eauto|].
    assert (E : violated (max c) (fun b => PrimFloat.ltb b x) = Some m)
      by now apply violated_Some.
    rewrite E. eauto.
  - intros x -> Hx Hmin Hmax. simpl. rewrite Hx. simpl.
    destruct (violated (min c) _) as [m|] eqn:E1.
    { exfalso. apply Hmin. exists m. now apply violated_Some in E1. }
    destruct (violated (max c) _) as [m|] eqn:E2.
    { exfalso. apply Hmax. exists m. now apply violated_Some in E2. }
    reflexivity.
Qed.

End NumberRangeFacts.

(** C3, witness: 5 lies within [0, 120] and is returned. *)
Lemma validateNumberRange_in_range_example :
  validateNumberRange render_opaque (VNumber 5) "age"
                      {| min := Some 0%float; max := Some 120%float |}
  = Return (VNumber 5).
Proof.
  apply (validateNumberRange_rejects_NaN_and_bound_violations
           render_opaque (VNumber 5) "age"
           {| min := Some 0%float; max := Some 120%float |}) with (x := 5%float).
  - reflexivity.
  - reflexivity.
  - intros [m [E H]]. simpl in E. injection E as <-. vm_compute in H. discriminate H.
  - intros [m [E H]]. simpl in E. injection E as <-. vm_compute in H. discriminate H.
Defined.

(** C3, counterexample: positive infinity is not a finite number, yet
    [validateNumberRange] returns it. *)
Lemma validateNumberRange_accepts_infinity :
  Number_isFinite (VNumber PrimFloat.infinity) = false
  /\ validateNumberRange render_opaque (VNumber PrimFloat.infinity) "age"
                         unconstrained
     = Return (VNumber PrimFloat.infinity)
  /\ validateNumberRange render_opaque (VNumber PrimFloat.infinity) "age"
                         {| min := Some 0%float; max := None |}
     = Return (VNumber PrimFloat.infinity).
Proof.
  repeat split; vm_compute; reflexivity.
Qed.

(* ----------------------------------------------------------------- *)
(** *** All helpers: the only error kind, and idempotence *)

Section HelperFacts.

Variable URL_new : string -> Completion JSValue.
Variable Number_toString : float -> string.

Lemma only_ValidationError_thrown (message : string) :
  only_ValidationError (Throw (ValidationError message)).
Proof. simpl. repeat split; eauto. Qed.

(** Case analysis on every test a helper makes. *)
Ltac helper_cases :=
  repeat match goal with
    | |- context [if ?b then _ else _] => destruct b
    | |- context [match violated ?b ?t with _ => _ end] =>
        destruct (violated b t)
    | |- context [match URL_new ?s with _ => _ end] => destruct (URL_new s)
    end.

(** [validateUrl] turns whatever [new URL] throws into a
    [ValidationError]. *)
Lemma validateUrl_cases (s : string) :
  validateUrl URL_new (VString s)
  = match URL_new s with
    | Return _ => Return (VString s)
    | Throw _ => Throw (ValidationError "Invalid URL format")
    end.
Proof. unfold validateUrl. simpl. now destruct (URL_new s). Qed.

(** C2: whatever the input, each of the seven helpers either returns
    a value or throws a [ValidationError] object, which is an instance
    of none of the other four kinds; in particular a failure of
    [new URL] inside [validateUrl] comes out as a [ValidationError]. *)
Theorem helpers_throw_only_ValidationError :
  forall (v : JSValue) (f : string) (nc : NumberConstraints)
         (lc : option LengthConstraints) (allowed : list string),
    only_ValidationError (validateRequired v f)
    /\ only_ValidationError (validateEmail v)
    /\ only_ValidationError (validateUrl URL_new v)
    /\ only_ValidationError (validateStringLength Number_toString v f nc)
    /\ only_ValidationError (validateNumberRange Number_toString v f nc)
    /\ only_ValidationError (validateEnum v f allowed)
    /\ only_ValidationError (validateArray Number_toString v f lc)
    /\ (forall s e,
           URL_new s = Throw e ->
           validateUrl URL_new (VString s)
           = Throw (ValidationError "Invalid URL format")).
Proof.
  intros v f nc lc allowed.
  unfold validateRequired, validateEmail, validateUrl, validateStringLength,
    validateNumberRange, validateEnum, validateArray, try_catch, bind.
  repeat split;
    try (helper_cases; first [apply only_ValidationError_thrown | exact I]).
  intros s e H. simpl. now rewrite H.
Qed.

Lemma returns_its_input_idempotent helper :
  returns_its_input helper -> idempotent helper.
Proof.
  intros Hr x y H. pose proof (Hr x y H) as E. subst y. exact H.
Qed.

Ltac returns_input :=
  intros x y; cbv beta; helper_cases; intros H;
  first [discriminate H | congruence].

(** C6: every helper, applied with the same field name and
    constraints to a value it has returned, returns that value again. *)
Theorem helpers_idempotent_on_their_output :
  forall (f : string) (nc : NumberConstraints)
         (lc : option LengthConstraints) (allowed : list string),
    idempotent (fun v => validateRequired v f)
    /\ idempotent validateEmail
    /\ idempotent (validateUrl URL_new)
    /\ idempotent (fun v => validateStringLength Number_toString v f nc)
    /\ idempotent (fun v => validateNumberRange Number_toString v f nc)
    /\ idempotent (fun v => validateEnum v f allowed)
    /\ idempotent (fun v => validateArray Number_toString v f lc)
    /\ (forall x y,
           validateEmail x = Return y ->
           bind (validateEmail x) validateEmail = validateEmail x).
Proof.
  intros f nc lc allowed.
  split; [|split; [exact validateEmail_idempotent|]].
  { apply returns_its_input_idempotent. unfold validateRequired. returns_input. }
  repeat split; try apply returns_its_input_idempotent.
  - unfold validateUrl, try_catch, bind. returns_input.
  - unfold validateStringLength. returns_input.
  - unfold validateNumberRange. returns_input.
  - unfold validateEnum. returns_input.
  - unfold validateArray. returns_input.
  - intros x y H. rewrite H. simpl. exact (validateEmail_idempotent x y H).
Qed.

End HelperFacts.

(** C2, witness: with a parser that refuses "not a url", [validateUrl]
    throws the [ValidationError] "Invalid URL format". *)
Lemma validateUrl_parse_failure_example :
  validateUrl URL_schematic (VString "not a url")
  = Throw (ValidationError "Invalid URL format").
Proof.
  refine (proj2 (proj2 (proj2 (proj2 (proj2 (proj2 (proj2
            (helpers_throw_only_ValidationError URL_schematic render_opaque
               VNull "x" unconstrained None []))))))) "not a url" _ _).
  reflexivity.
Defined.

(** C6, witness: [validateEmail] accepts "A@B.com" and returns
    "a@b.com", and applied to "a@b.com" it returns "a@b.com" again. *)
Lemma validateEmail_twice_example :
  validateEmail (VString "A@B.com") = Return (VString "a@b.com")
  /\ validateEmail (VString "a@b.com") = Return (VString "a@b.com").
Proof.
  assert (H : validateEmail (VString "A@B.com") = Return (VString "a@b.com"))
    by reflexivity.
  split; [exact H|].
  exact (proj1 (proj2
           (helpers_idempotent_on_their_output URL_schematic render_opaque
              "email" unconstrained None []))
           (VString "A@B.com") (VString "a@b.com") H).
Defined.

(** [validateEmail_rejects_white_space], witness: a leading blank is
    white space, and the address is refused. *)
Lemma validateEmail_leading_blank_example :
  validateEmail (VString " user@example.com")
  = Throw (ValidationError "Invalid email format").
Proof.
  apply (validateEmail_rejects_white_space " user@example.com").
  reflexivity.
Defined.

(* ================================================================= *)
(** ** The matcher against the language *)

Section MatcherFacts.

Import RegExp RegExpSem.

Lemma append_empty_r (s : string) : (s ++ "")%string = s.
Proof. induction s as [|c s IH]; simpl; [reflexivity|now rewrite IH]. Qed.

Lemma append_assoc (s1 s2 s3 : string) :
  ((s1 ++ s2) ++ s3)%string = (s1 ++ (s2 ++ s3))%string.
Proof. induction s1 as [|c s1 IH]; simpl; [reflexivity|now rewrite IH]. Qed.

Lemma append_is_empty (s1 s2 : string) :
  (s1 ++ s2)%string = EmptyString -> s1 = EmptyString /\ s2 = EmptyString.
Proof. destruct s1; simpl; intros H; [now split|discriminate H]. Qed.


Lemma nullable_matches (r : Regex) :
  nullable r = true <-> matches r EmptyString.
Proof.
  induction r as [| |a|r1 IH1 r2 IH2|r1 IH1 r2 IH2|r IH]; simpl.
  - split; [discriminate|]. intros H. inversion H.
  - split; [constructor|reflexivity].
  - split; [discriminate|]. intros H. inversion H.
  - rewrite andb_true_iff, IH1, IH2. split.
    + intros [H1 H2]. exact (M_Cat r1 r2 "" "" H1 H2).
    + intros H. inversion H as [| |? ? s1 s2 H1 H2| | | |]; subst.
      match goal with
      | E : (s1 ++ s2)%string = EmptyString |- _ =>
          apply append_is_empty in E as [-> ->]
      end.
      now split.
  - rewrite orb_true_iff, IH1, IH2. split.
    + intros [H|H]; [now apply M_AltL|now apply M_AltR].
    + intros H. inversion H; subst; [now left|now right].
  - split; [constructor|reflexivity].
Qed.

(** A non-empty word of [r*] starts with a non-empty word of [r]. *)
Lemma star_cons (r : Regex) (c : ascii) (s : string) :
  matches (Star r) (String c s) ->
  exists s1 s2, s = (s1 ++ s2)%string
                /\ matches r (String c s1) /\ matches (Star r) s2.
Proof.
  intros H. remember (Star r) as r' eqn:Er. remember (String c s) as w eqn:Ew.
  revert s Ew.
  induction H as [|a d Ha|r1 r2 s1 s2 H1 _ H2 _|r1 r2 w H _|r1 r2 w H _
                  |r0|r0 s1 s2 H1 _ H2 IH2];
    try discriminate Er; intros s Ew; [discriminate Ew|].
  injection Er as ->.
  destruct s1 as [|d s1]; simpl in Ew.
  - now apply IH2.
  - injection Ew as -> <-. now exists s1, s2.
Qed.

Lemma deriv_matches (c : ascii) (r : Regex) :
  forall s, matches (deriv c r) s <-> matches r (String c s).
Proof.
  induction r as [| |a|r1 IH1 r2 IH2|r1 IH1 r2 IH2|r IH]; simpl; intros s.
  - split; intros H; inversion H.
  - split; intros H; inversion H.
  - destruct (atom_accepts a c) eqn:Ha; split; intros H.
    + inversion H; subst. now constructor.
    + inversion H; subst. constructor.
    + inversion H.
    + inversion H; subst. congruence.
  - split; intros H.
    + inversion H as [| | |? ? ? HL|? ? ? HR| |]; subst.
      * inversion HL as [| |? ? s1 s2 H1 H2| | | |]; subst.
        apply IH1 in H1. exact (M_Cat r1 r2 (String c s1) s2 H1 H2).
      * destruct (nullable r1) eqn:Hn; [|inversion HR].
        apply IH2 in HR. apply nullable_matches in Hn.
        exact (M_Cat r1 r2 "" (String c s) Hn HR).
    + inversion H as [| |? ? s1 s2 H1 H2| | | |]; subst.
      match goal with
      | E : (s1 ++ s2)%string = String c s |- _ =>
          destruct s1 as [|d s1]; simpl in E;
          [subst s2|injection E as -> <-]
      end.
      * apply M_AltR.
        apply nullable_matches in H1. rewrite H1. now apply IH2.
      * apply M_AltL.
        apply M_Cat; [now apply IH1|exact H2].
  - split; intros H.
    + inversion H; subst; [apply M_AltL; now apply IH1|apply M_AltR; now apply IH2].
    + inversion H; subst; [apply M_AltL; now apply IH1|apply M_AltR; now apply IH2].
  - split; intros H.
    + inversion H as [| |? ? s1 s2 H1 H2| | | |]; subst.
      apply IH in H1. exact (M_StarS r (String c s1) s2 H1 H2).
    + apply star_cons in H as [s1 [s2 [-> [H1 H2]]]].
      apply M_Cat; [now apply IH|exact H2].
Qed.

(** The derivative matcher decides the language. *)
Lemma full_match_matches (s : string) :
  forall r, full_match r s = true <-> matches r s.
Proof.
  induction s as [|c s IH]; simpl; intros r.
  - apply nullable_matches.
  - rewrite IH. apply deriv_matches.
Qed.

End MatcherFacts.

(* ================================================================= *)
(** ** What [emailRegex] accepts *)

Section EmailLanguage.

Import RegExp RegExpSem.

Lemma not_space_or_at_accepts (c : ascii) :
  atom_accepts (NegClass [ItemSpace; ItemChar "@"%char]) c = plain_char c.
Proof. unfold plain_char. simpl. now rewrite orb_false_r. Qed.

Lemma one_matches (a : Atom) (s : string) :
  matches (One a) s <->
  exists c, s = String c EmptyString /\ atom_accepts a c = true.
Proof.
  split.
  - intros H. inversion H; subst. eauto.
  - intros [c [-> H]]. now constructor.
Qed.

Lemma cat_matches (r1 r2 : Regex) (s : string) :
  matches (Cat r1 r2) s <->
  exists s1 s2, s = (s1 ++ s2)%string /\ matches r1 s1 /\ matches r2 s2.
Proof.
  split.
  - intros H. inversion H; subst. eauto.
  - intros [s1 [s2 [-> [H1 H2]]]]. now constructor.
Qed.

Lemma star_plain (s : string) :
  matches (Star not_space_or_at) s <-> plain s = true.
Proof.
  split.
  - intros H. remember (Star not_space_or_at) as r eqn:Er.
    induction H as [| | | | | |r0 s1 s2 H1 _ H2 IH2]; try discriminate Er.
    + reflexivity.
    + injection Er as ->. apply one_matches in H1 as [c [-> Hc]].
      rewrite not_space_or_at_accepts in Hc. simpl. now rewrite Hc, IH2.
  - induction s as [|c s IH]; simpl; intros H; [constructor|].
    apply andb_true_iff in H as [Hc Hs].
    apply (M_StarS not_space_or_at (String c "") s); [|now apply IH].
    constructor. now rewrite not_space_or_at_accepts.
Qed.

Lemma plus_plain (s : string) :
  matches (Plus not_space_or_at) s <-> s <> EmptyString /\ plain s = true.
Proof.
  unfold Plus. rewrite cat_matches. split.
  - intros [s1 [s2 [-> [H1 H2]]]]. apply one_matches in H1 as [c [-> Hc]].
    rewrite not_space_or_at_accepts in Hc. apply star_plain in H2.
    simpl. split; [discriminate|now rewrite Hc, H2].
  - intros [Hne H]. destruct s as [|c s]; [congruence|].
    simpl in H. apply andb_true_iff in H as [Hc Hs].
    exists (String c ""), s. repeat split.
    + constructor. now rewrite not_space_or_at_accepts.
    + now apply star_plain.
Qed.

Lemma lit_matches (d : ascii) (s : string) :
  matches (One (Lit d)) s <-> s = String d EmptyString.
Proof.
  rewrite one_matches. simpl. split.
  - intros [c [-> Hc]]. apply Ascii.eqb_eq in Hc. now subst.
  - intros ->. exists d. split; [reflexivity|apply Ascii.eqb_refl].
Qed.

(** The pattern accepts exactly the strings [local@domain.tld] whose
    three parts are non-empty and free of white space and "@". *)
Lemma emailRegex_language (s : string) :
  test_anchored emailRegex s = true <-> email_shape s.
Proof.
  unfold test_anchored. rewrite full_match_matches.
  unfold emailRegex, email_shape.
  rewrite cat_matches. split.
  - intros [l [s1 [-> [Hl H]]]].
    apply cat_matches in H as [x [s2 [-> [Hx H]]]].
    apply cat_matches in H as [a [s3 [-> [Ha H]]]].
    apply cat_matches in H as [y [b [-> [Hy Hb]]]].
    apply lit_matches in Hx as ->. apply lit_matches in Hy as ->.
    apply plus_plain in Hl as [? ?], Ha as [? ?], Hb as [? ?].
    exists l, a, b. repeat split; assumption.
  - intros [l [a [b [-> [Hl [Ha [Hb [Pl [Pa Pb]]]]]]]]].
    exists l, ("@" ++ a ++ "." ++ b)%string.
    split; [reflexivity|]. split; [now apply plus_plain|].
    apply cat_matches. exists "@"%string, (a ++ "." ++ b)%string.
    split; [reflexivity|]. split; [now apply lit_matches|].
    apply cat_matches. exists a, ("." ++ b)%string.
    split; [reflexivity|]. split; [now apply plus_plain|].
    apply cat_matches. exists "."%string, b.
    split; [reflexivity|]. split; [now apply lit_matches|now apply plus_plain].
Qed.






(** What a successful call tells about its argument and result. *)
Lemma validateEmail_returned (v y : JSValue) :
  validateEmail v = Return y ->
  exists s, v = VString s /\ email_shape s /\ y = VString (Str.toLowerCase s).
Proof.
  intros H.
  destruct (validateEmail_cases v)
    as [[_ E]|[[s [_ [_ E]]]|[s [-> [Ht _]]]]];
    try (rewrite E in H; discriminate H).
  rewrite (validateEmail_accepted s Ht) in H. injection H as <-.
  exists s. repeat split. now apply emailRegex_language.
Qed.

(** X2: [validateEmail] returns a value exactly for the strings of the
    form local@domain.tld with non-empty local, domain and tld parts
    that contain neither white space nor "@" (further dots are allowed);
    what it returns is that string in lower case. *)
Theorem validateEmail_accepts_exactly_the_shape :
  forall v y : JSValue,
    validateEmail v = Return y
    <-> exists s, v = VString s /\ email_shape s
                  /\ y = VString (Str.toLowerCase s).
Proof.
  intros v y. split.
  - apply validateEmail_returned.
  - intros [s [-> [Hs ->]]]. apply validateEmail_accepted.
    now apply emailRegex_language.
Qed.


(** X4: [validateEmail] does not distinguish addresses that differ only
    in case: they are accepted or refused together, with the same
    result. *)
Theorem validateEmail_ignores_case :
  forall s1 s2 : string,
    Str.toLowerCase s1 = Str.toLowerCase s2 ->
    validateEmail (VString s1) = validateEmail (VString s2).
Proof.
  intros s1 s2 E.
  assert (Ht : test_anchored emailRegex s1 = test_anchored emailRegex s2).
  { rewrite <- (emailRegex_match_toLowerCase s1), E.
    apply emailRegex_match_toLowerCase. }
  destruct (test_anchored emailRegex s2) eqn:H2.
  - rewrite (validateEmail_accepted s1 Ht), (validateEmail_accepted s2 H2).
    now rewrite E.
  - unfold validateEmail. simpl. now rewrite Ht, H2.
Qed.

End EmailLanguage.


(** X4, witness. *)
Lemma validateEmail_ignores_case_example :
  validateEmail (VString "Ann@Site.ORG") = validateEmail (VString "ANN@site.org").
Proof.
  apply (validateEmail_ignores_case "Ann@Site.ORG" "ANN@site.org").
  reflexivity.
Defined.

(* ================================================================= *)
(** ** More on the guards *)

Section MoreGuardFacts.

Import Kinds Exhaustive.


Lemma on_chain_AppError_Error (cls : ClassTag) :
  on_chain chain_fuel cls CAppError = true ->
  on_chain chain_fuel cls CError = true.
Proof. destruct cls; simpl; intros H; try discriminate H; reflexivity. Qed.

(** X6: the guards are nested: whatever [isAppError] accepts [isError]
    accepts, whatever [isError] accepts [isObject] accepts, every value
    a kind guard accepts passes [isNotNull], and every value that passes
    [isNotNull] passes [isDefined]. *)
Theorem guards_are_nested :
  forall v : JSValue,
    (isAppError v = true -> isError v = true)
    /\ (isError v = true -> isObject v = true)
    /\ (isString v || isNumber v || isBoolean v || isArray v || isObject v
        = true -> isNotNull v = true)
    /\ (isNotNull v = true -> isDefined v = true).
Proof.
  intros v. repeat split.
  - unfold isAppError, isError, instanceof. destruct v; try discriminate.
    apply on_chain_AppError_Error.
  - unfold isError, instanceof. now destruct v.
  - unfold isString, isNumber, isBoolean, isArray, isObject, isNotNull.
    now destruct v.
  - unfold isNotNull, isDefined. now destruct v.
Qed.

Variable JSON_stringify : JSValue -> string.


End MoreGuardFacts.

(** X6, witness: a [ValidationError] passes [isAppError], hence
    [isError]. *)
Lemma guards_are_nested_example : isError (ValidationError "m") = true.
Proof.
  apply (proj1 (guards_are_nested (ValidationError "m"))). reflexivity.
Defined.

(* ================================================================= *)
(** ** More on the error classes *)

Section MoreErrorFacts.

Import Kinds.


(** X9: an error object of one concrete kind is an instance of
    [AppError] and of [Error], and of no other concrete kind. *)
Theorem concrete_kinds_are_exclusive :
  forall (K : ClassTag) (e : JSValue),
    constructs K e ->
    instanceof e CAppError = true
    /\ instanceof e CError = true
    /\ forall K', In K' concrete_kinds -> (instanceof e K' = true <-> K' = K).
Proof.
  intros K e Hc.
  destruct Hc; (split; [reflexivity|split; [reflexivity|]]);
    intros K' Hin; simpl in Hin;
    repeat (destruct Hin as [Hin|Hin]; [subst K'|]);
    try contradiction;
    split; intros E; try reflexivity; try discriminate E.
Qed.

Lemma float_neq (a b : float) :
  PrimFloat.eqb a a = true -> PrimFloat.eqb a b = false -> a <> b.
Proof. intros Ha Hab E. subst b. congruence. Qed.

(** X10: the code, the status and the name each identify the kind: two
    error objects of concrete kinds that agree on [code], or on
    [statusCode], or on [name], are of the same kind. *)
Theorem code_status_and_name_identify_the_kind :
  forall (K1 K2 : ClassTag) (e1 e2 : JSValue),
    constructs K1 e1 -> constructs K2 e2 ->
    field "code" e1 = field "code" e2
    \/ field "statusCode" e1 = field "statusCode" e2
    \/ field "name" e1 = field "name" e2 ->
    K1 = K2.
Proof.
  intros K1 K2 e1 e2 H1 H2 H.
  destruct H1, H2; try reflexivity; exfalso;
    destruct H as [H|[H|H]]; simpl in H; try discriminate H;
    injection H as H; revert H; apply float_neq; reflexivity.
Qed.

(** X11: the base class stores what it is given: [new AppError(m, c, s)]
    has message [m], code [c], status [s] and name "AppError"; without
    a status argument the status is 500.  It is an [AppError] and an
    [Error], and of none of the concrete kinds. *)
Theorem AppError_stores_its_arguments :
  forall (message code : string) (statusCode : option float),
    field "message" (AppError message code statusCode) = Some (VString message)
    /\ field "code" (AppError message code statusCode) = Some (VString code)
    /\ field "statusCode" (AppError message code statusCode)
       = Some (VNumber (match statusCode with Some s => s | None => 500 end))
    /\ field "name" (AppError message code statusCode) = Some (VString "AppError")
    /\ isAppError (AppError message code statusCode) = true
    /\ isError (AppError message code statusCode) = true
    /\ forall K, In K concrete_kinds ->
                 instanceof (AppError message code statusCode) K = false.
Proof.
  intros message code statusCode. repeat split.
  intros K Hin. simpl in Hin.
  repeat (destruct Hin as [Hin|Hin]; [subst K; reflexivity|]).
  contradiction.
Qed.

End MoreErrorFacts.


(** X9, witness. *)
Lemma concrete_kinds_are_exclusive_example :
  instanceof (ConflictError "taken") CAppError = true
  /\ instanceof (ConflictError "taken") CError = true
  /\ forall K', In K' Kinds.concrete_kinds ->
                (instanceof (ConflictError "taken") K' = true
                 <-> K' = CConflictError).
Proof.
  exact (concrete_kinds_are_exclusive
           CConflictError (ConflictError "taken")
           (Kinds.new_ConflictError "taken")).
Defined.

(** X10, witness: an error with the code of [ForbiddenError None] is a
    [ForbiddenError]. *)
Lemma code_identifies_the_kind_example : CForbiddenError = CForbiddenError.
Proof.
  apply (code_status_and_name_identify_the_kind
           CForbiddenError CForbiddenError
           (ForbiddenError None) (ForbiddenError (Some "Admin access required"))).
  - apply Kinds.new_ForbiddenError.
  - apply Kinds.new_ForbiddenError.
  - left. reflexivity.
Defined.

(* ================================================================= *)
(** ** More on the validation helpers *)

Section MoreHelperFacts.

Variable URL_new : string -> Completion JSValue.
Variable Number_toString : float -> string.

Lemma violated_None (bound : option float) (test : float -> bool) :
  violated bound test = None <-> forall m, bound = Some m -> test m = false.
Proof.
  unfold violated. destruct bound as [b|].
  - destruct (test b) eqn:Hb; split; try discriminate; auto.
    + intros H. specialize (H b eq_refl). congruence.
    + intros _ m H. injection H as <-. exact Hb.
  - split; [discriminate|reflexivity].
Qed.

Lemma isArray_iff (v : JSValue) :
  Array_isArray v = true <-> exists items, v = VArray items.
Proof.
  split.
  - destruct v; simpl; intros H; try discriminate H. now exists items.
  - intros [items ->]. reflexivity.
Qed.

(** X12: [validateUrl] returns exactly when its argument is a string
    that [new URL] parses, and then returns the argument itself, not the
    parsed or normalised URL. *)
Theorem validateUrl_returns_the_input_iff_it_parses :
  forall v r : JSValue,
    validateUrl URL_new v = Return r
    <-> exists s, v = VString s /\ r = VString s
                  /\ exists parsed, URL_new s = Return parsed.
Proof.
  intros v r. unfold validateUrl, try_catch, bind. split.
  - destruct (isString v) eqn:Hs; simpl; [|discriminate].
    apply typeof_string in Hs as [s ->]. simpl.
    destruct (URL_new s) as [parsed|e] eqn:Hu; [|discriminate].
    intros H. injection H as <-. exists s. eauto.
  - intros [s [-> [-> [parsed Hu]]]]. simpl. now rewrite Hu.
Qed.

(** X13: [validateStringLength] returns exactly when its argument is a
    string whose length is not below a given [min] and not above a
    given [max], and then returns the argument itself; with both bounds
    absent every string, the empty one included, is returned. *)
Theorem validateStringLength_returns_iff_within_bounds :
  forall (v : JSValue) (f : string) (c : NumberConstraints) (r : JSValue),
    (validateStringLength Number_toString v f c = Return r
     <-> r = v
         /\ exists s, v = VString s
            /\ (forall m, min c = Some m ->
                          PrimFloat.ltb (number_of_nat (String.length s)) m = false)
            /\ (forall m, max c = Some m ->
                          PrimFloat.ltb m (number_of_nat (String.length s)) = false))
    /\ (forall s, validateStringLength Number_toString (VString s) f unconstrained
                  = Return (VString s)).
Proof.
  intros v f c r. split; [|reflexivity].
  unfold validateStringLength. split.
  - destruct (isString v) eqn:Hs; simpl; [|discriminate].
    apply typeof_string in Hs as [s ->]. simpl.
    destruct (violated (min c) _) eqn:E1; [discriminate|].
    destruct (violated (max c) _) eqn:E2; [discriminate|].
    intros H. injection H as <-. split; [reflexivity|]. exists s.
    split; [reflexivity|]. split.
    + exact (proj1 (violated_None _ _) E1).
    + exact (proj1 (violated_None _ _) E2).
  - intros [-> [s [-> [H1 H2]]]]. simpl.
    rewrite (proj2 (violated_None _ (fun m => PrimFloat.ltb _ m)) H1).
    now rewrite (proj2 (violated_None _ (fun m => PrimFloat.ltb m _)) H2).
Qed.

(** X14: [validateEnum] returns exactly when its argument is a string
    that occurs in the allowed list, compared exactly, and then returns
    the argument itself; any other string is refused with a message
    that lists the allowed values separated by ", ", so an empty list
    refuses every string. *)
Theorem validateEnum_returns_iff_allowed :
  forall (v : JSValue) (f : string) (allowed : list string) (r : JSValue),
    (validateEnum v f allowed = Return r
     <-> r = v /\ exists s, v = VString s /\ In s allowed)
    /\ (forall s, ~ In s allowed ->
                  validateEnum (VString s) f allowed
                  = Throw (ValidationError
                             (f ++ " must be one of: "
                              ++ String.concat ", " allowed)))
    /\ (forall s, validateEnum (VString s) f []
                  = Throw (ValidationError (f ++ " must be one of: "))).
Proof.
  intros v f allowed r.
  assert (Hin : forall s, Str.includes allowed s = true <-> In s allowed).
  { intros s. unfold Str.includes. rewrite existsb_exists. split.
    - intros [x [Hx E]]. apply String.eqb_eq in E. now subst.
    - intros H. exists s. split; [exact H|apply String.eqb_refl]. }
  unfold validateEnum. repeat split.
  - destruct (isString v) eqn:Hs; simpl in *; [|discriminate].
    destruct (Str.includes allowed (as_string v)); simpl in *; congruence.
  - destruct (isString v) eqn:Hs; simpl in *; [|discriminate].
    apply typeof_string in Hs as [s ->]. simpl in *.
    destruct (Str.includes allowed s) eqn:Hi; simpl in *; [|discriminate].
    exists s. split; [reflexivity|now apply Hin].
  - intros [-> [s [-> Hs]]]. simpl. apply Hin in Hs. now rewrite Hs.
  - intros s Hs. simpl.
    destruct (Str.includes allowed s) eqn:Hi; [|reflexivity].
    apply Hin in Hi. contradiction.
Qed.

(** X15: [validateArray] returns exactly when its argument is an array
    whose length is not below a given [minLength] and not above a given
    [maxLength], and then returns the argument itself; without a
    constraints argument every array, the empty one included, is
    returned, and a string is refused although it has a length. *)
Theorem validateArray_returns_iff_within_bounds :
  forall (v : JSValue) (f : string) (c : option LengthConstraints)
         (r : JSValue),
    (validateArray Number_toString v f c = Return r
     <-> r = v
         /\ exists items, v = VArray items
            /\ (forall m, optional_chain c minLength = Some m ->
                          PrimFloat.ltb (number_of_nat (List.length items)) m
                          = false)
            /\ (forall m, optional_chain c maxLength = Some m ->
                          PrimFloat.ltb m (number_of_nat (List.length items))
                          = false))
    /\ (forall items, validateArray Number_toString (VArray items) f None
                      = Return (VArray items))
    /\ (forall s, validateArray Number_toString (VString s) f c
                  = Throw (ValidationError (f ++ " must be an array"))).
Proof.
  intros v f c r. split; [|split; reflexivity].
  unfold validateArray. split.
  - destruct (Array_isArray v) eqn:Ha; simpl; [|discriminate].
    apply isArray_iff in Ha as [items ->]. simpl.
    destruct (violated (optional_chain c minLength) _) eqn:E1; [discriminate|].
    destruct (violated (optional_chain c maxLength) _) eqn:E2; [discriminate|].
    intros H. injection H as <-. split; [reflexivity|]. exists items.
    split; [reflexivity|]. split.
    + exact (proj1 (violated_None _ _) E1).
    + exact (proj1 (violated_None _ _) E2).
  - intros [-> [items [-> [H1 H2]]]]. simpl.
    rewrite (proj2 (violated_None _ (fun m => PrimFloat.ltb _ m)) H1).
    now rewrite (proj2 (violated_None _ (fun m => PrimFloat.ltb m _)) H2).
Qed.

(** X16: what a helper returns passes the guard of the type it
    promises: [validateRequired] a non-null value, [validateEmail],
    [validateUrl], [validateStringLength] and [validateEnum] a string,
    [validateNumberRange] a number that is not NaN, [validateArray] an
    array. *)
Theorem helper_results_pass_their_guard :
  forall (v : JSValue) (f : string) (nc : NumberConstraints)
         (lc : option LengthConstraints) (allowed : list string) (y : JSValue),
    (validateRequired v f = Return y -> isNotNull y = true)
    /\ (validateEmail v = Return y -> isString y = true)
    /\ (validateUrl URL_new v = Return y -> isString y = true)
    /\ (validateStringLength Number_toString v f nc = Return y ->
        isString y = true)
    /\ (validateNumberRange Number_toString v f nc = Return y ->
        isNumber y = true)
    /\ (validateEnum v f allowed = Return y -> isString y = true)
    /\ (validateArray Number_toString v f lc = Return y -> isArray y = true).
Proof.
  intros v f nc lc allowed y. repeat split.
  - unfold validateRequired. destruct (isNotNull v) eqn:H; simpl; congruence.
  - intros H. unfold validateEmail in H.
    destruct (isString v); simpl in H; [|discriminate H].
    destruct (RegExp.test_anchored emailRegex (as_string v));
      simpl in H; [|discriminate H].
    now injection H as <-.
  - unfold validateUrl, try_catch, bind.
    destruct (isString v) eqn:Hs; simpl; [|discriminate].
    destruct (URL_new (as_string v)); [|discriminate].
    intros H. injection H as <-. exact Hs.
  - unfold validateStringLength.
    destruct (isString v) eqn:Hs; simpl; [|discriminate].
    destruct (violated (min nc) _); [discriminate|].
    destruct (violated (max nc) _); [discriminate|].
    intros H. injection H as <-. exact Hs.
  - unfold validateNumberRange, isNumber.
    destruct (String.eqb (typeof v) "number") eqn:Ht; simpl; [|discriminate].
    destruct (Number_isNaN v) eqn:Hn; simpl; [discriminate|].
    destruct (violated (min nc) _); [discriminate|].
    destruct (violated (max nc) _); [discriminate|].
    intros H. injection H as <-. now rewrite Ht, Hn.
  - unfold validateEnum.
    destruct (isString v) eqn:Hs; simpl; [|discriminate].
    destruct (Str.includes allowed (as_string v)); simpl; [|discriminate].
    intros H. injection H as <-. exact Hs.
  - unfold validateArray, isArray.
    destruct (Array_isArray v) eqn:Ha; simpl; [|discriminate].
    destruct (violated (optional_chain lc minLength) _); [discriminate|].
    destruct (violated (optional_chain lc maxLength) _); [discriminate|].
    intros H. injection H as <-. exact Ha.
Qed.

Lemma ltb_nan_r (x : float) : PrimFloat.ltb x PrimFloat.nan = false.
Proof.
  rewrite ltb_spec. change (Prim2SF PrimFloat.nan) with S754_nan.
  unfold SFltb. destruct (Prim2SF x); reflexivity.
Qed.

Lemma ltb_nan_l (x : float) : PrimFloat.ltb PrimFloat.nan x = false.
Proof.
  rewrite ltb_spec. change (Prim2SF PrimFloat.nan) with S754_nan.
  reflexivity.
Qed.

(** X17: a bound that is NaN checks nothing: with [min] and [max] both
    NaN, [validateNumberRange] returns every number other than NaN,
    [validateStringLength] every string and [validateArray] every
    array. *)
Theorem NaN_bounds_are_never_violated :
  forall (f : string),
    (forall x, PrimFloat.is_nan x = false ->
               validateNumberRange Number_toString (VNumber x) f
                 {| min := Some PrimFloat.nan; max := Some PrimFloat.nan |}
               = Return (VNumber x))
    /\ (forall s,
           validateStringLength Number_toString (VString s) f
             {| min := Some PrimFloat.nan; max := Some PrimFloat.nan |}
           = Return (VString s))
    /\ (forall items,
           validateArray Number_toString (VArray items) f
             (Some {| minLength := Some PrimFloat.nan;
                      maxLength := Some PrimFloat.nan |})
           = Return (VArray items)).
Proof.
  intros f. repeat split.
  - intros x Hx. unfold validateNumberRange. simpl. rewrite Hx. simpl.
    now rewrite ltb_nan_r, ltb_nan_l.
  - intros s. unfold validateStringLength. simpl.
    now rewrite ltb_nan_r, ltb_nan_l.
  - intros items. unfold validateArray. simpl.
    now rewrite ltb_nan_r, ltb_nan_l.
Qed.

(** X18: [validateEmail(validateRequired(v, f))], as the callers write
    it, returns exactly when [validateEmail(v)] does, with the same
    result; [validateRequired] only changes the error for [null] and
    [undefined].  The empty string passes [validateRequired] and is
    refused by [validateEmail] as an invalid format. *)
Theorem validateRequired_then_validateEmail :
  forall (v : JSValue) (f : string),
    (forall y, bind (validateRequired v f) validateEmail = Return y
               <-> validateEmail v = Return y)
    /\ (isNotNull v = true ->
        bind (validateRequired v f) validateEmail = validateEmail v)
    /\ (isNotNull v = false ->
        bind (validateRequired v f) validateEmail
        = Throw (ValidationError (f ++ " is required"))
        /\ validateEmail v = Throw (ValidationError "Email must be a string"))
    /\ bind (validateRequired (VString "") f) validateEmail
       = Throw (ValidationError "Invalid email format").
Proof.
  intros v f. unfold validateRequired.
  destruct v; simpl; repeat split; intros; try discriminate; auto.
Qed.

End MoreHelperFacts.

(** X16, witness. *)
Lemma helper_results_pass_their_guard_example :
  isNumber (VNumber 5) = true.
Proof.
  refine (proj1 (proj2 (proj2 (proj2 (proj2
            (helper_results_pass_their_guard URL_schematic render_opaque
               (VNumber 5) "age"
               {| min := Some 0%float; max := Some 120%float |}
               None [] (VNumber 5)))))) _).
  reflexivity.
Defined.

(** X18, witness. *)
Lemma validateRequired_then_validateEmail_example :
  bind (validateRequired (VString "A@B.com") "email") validateEmail
  = validateEmail (VString "A@B.com").
Proof.
  refine (proj1 (proj2
            (validateRequired_then_validateEmail (VString "A@B.com") "email")) _).
  reflexivity.
Defined.

(* ================================================================= *)
(** ** More on the response envelope *)

Section MoreEnvelopeFacts.

(** X19: the two envelopes are never confused and lose nothing: a
    success envelope differs from every error envelope, the [success]
    field tells them apart, and equal envelopes were built from equal
    arguments. *)
Theorem envelopes_are_distinct_and_injective :
  (forall d m c, successResponse d <> errorResponse m c)
  /\ (forall d m c,
         field "success" (successResponse d)
         <> field "success" (errorResponse m c))
  /\ (forall d1 d2, successResponse d1 = successResponse d2 -> d1 = d2)
  /\ (forall m1 c1 m2 c2,
         errorResponse m1 c1 = errorResponse m2 c2 -> m1 = m2 /\ c1 = c2).
Proof.
  repeat split.
  - discriminate.
  - discriminate.
  - intros d1 d2 H. now injection H.
  - injection H as H _. exact H.
  - injection H as _ H. destruct c1, c2; simpl in H; congruence.
Qed.

End MoreEnvelopeFacts.

(* ================================================================= *)
(** ** The route handler *)

Section HandlerFacts.

Import Kinds Boundary.

Variable Response : Type.
Variable Response_json : JSValue -> JSValue -> Completion Response.
Variable createUser : JSValue -> JSValue -> Completion JSValue.

Lemma member_of_present (k : string) (b : JSValue) :
  isNotNull b = true -> member k b = Return (prop k b).
Proof. destruct b; simpl; intros H; try discriminate H; reflexivity. Qed.

Lemma errorResponse_of_strings (m c : string) :
  errorResponse_of (VString m) (VString c) = errorResponse m (Some c).
Proof. reflexivity. Qed.

Lemma recover_ValidationError (m : string) :
  POST_recover Response Response_json (ValidationError m)
  = Response_json (errorResponse m (Some "VALIDATION_ERROR")) (VNumber 400).
Proof. reflexivity. Qed.

Lemma recover_unexpected (e : JSValue) :
  isAppError e = false ->
  POST_recover Response Response_json e
  = Response_json (errorResponse "Internal server error" None) (VNumber 500).
Proof. intros H. unfold POST_recover. now rewrite H. Qed.

Lemma validateRequired_present (v : JSValue) (f : string) :
  isNotNull v = true -> validateRequired v f = Return v.
Proof. intros H. unfold validateRequired. now rewrite H. Qed.

Lemma validateRequired_absent (v : JSValue) (f : string) :
  isNotNull v = false ->
  validateRequired v f = Throw (ValidationError (f ++ " is required")).
Proof. intros H. unfold validateRequired. now rewrite H. Qed.

(** With both fields supplied the handler reaches [createUser]. *)
Lemma POST_with_both_fields (b : JSValue) :
  supplied "email" b = true -> supplied "name" b = true ->
  POST Response Response_json (Return b) createUser
  = try_catch
      (bind (createUser (prop "email" b) (prop "name" b)) (fun user =>
       bind (member "id" user) (fun _ =>
       Response_json (successResponse user) (VNumber 201))))
      (POST_recover Response Response_json).
Proof.
  unfold supplied. intros He Hn.
  apply andb_true_iff in He as [Hb He]. apply andb_true_iff in Hn as [_ Hn].
  unfold POST, POST_attempt. cbn [bind].
  rewrite (member_of_present "email" b Hb). cbn [bind].
  rewrite (validateRequired_present _ _ He). cbn [bind].
  rewrite (member_of_present "name" b Hb). cbn [bind].
  rewrite (validateRequired_present _ _ Hn). reflexivity.
Qed.

(** X21: a request whose body lacks [email] (missing, [null] or
    [undefined]) is answered with status 400 and the error envelope
    ("email is required", VALIDATION_ERROR), whatever [name] is and
    without regard to [createUser]; a body with [email] but without
    [name] is answered likewise with "name is required". *)
Theorem POST_answers_400_for_a_missing_field :
  forall b : JSValue,
    isNotNull b = true ->
    (supplied "email" b = false ->
     POST Response Response_json (Return b) createUser
     = Response_json (errorResponse "email is required" (Some "VALIDATION_ERROR"))
                     (VNumber 400))
    /\ (supplied "email" b = true -> supplied "name" b = false ->
        POST Response Response_json (Return b) createUser
        = Response_json (errorResponse "name is required" (Some "VALIDATION_ERROR"))
                        (VNumber 400)).
Proof.
  intros b Hb. unfold supplied. rewrite Hb. cbn [andb].
  unfold POST, POST_attempt. cbn [bind].
  rewrite (member_of_present "email" b Hb). cbn [bind].
  split.
  - intros He. rewrite (validateRequired_absent _ _ He). cbn [bind try_catch].
    apply recover_ValidationError.
  - intros He Hn. rewrite (validateRequired_present _ _ He). cbn [bind].
    rewrite (member_of_present "name" b Hb). cbn [bind].
    rewrite (validateRequired_absent _ _ Hn). cbn [bind try_catch].
    apply recover_ValidationError.
Qed.

(** X22: when both fields are supplied and [createUser] throws an error
    of a concrete kind, the answer carries that error's message and
    code in the error envelope and its [statusCode] as status. *)
Theorem POST_reports_errors_of_the_taxonomy :
  forall (b : JSValue) (K : ClassTag) (e : JSValue),
    supplied "email" b = true -> supplied "name" b = true ->
    createUser (prop "email" b) (prop "name" b) = Throw e ->
    constructs K e ->
    exists message code status,
      field "message" e = Some (VString message)
      /\ field "code" e = Some (VString code)
      /\ field "statusCode" e = Some (VNumber status)
      /\ POST Response Response_json (Return b) createUser
         = Response_json (errorResponse message (Some code)) (VNumber status).
Proof.
  intros b K e He Hn Hc HK.
  rewrite (POST_with_both_fields b He Hn), Hc. cbn [bind try_catch].
  destruct HK; eexists; eexists; eexists; repeat split.
Qed.

(** X23: a failure outside the taxonomy never reaches the client: if
    reading the request throws a value that is not an [AppError], if the
    body is [null], if [createUser] throws such a value or returns
    [null] or [undefined], the answer is status 500 with the error
    envelope "Internal server error" and no code, the same for every
    such failure. *)
Theorem POST_masks_unexpected_failures :
  let generic :=
    Response_json (errorResponse "Internal server error" None) (VNumber 500) in
  (forall e, isAppError e = false -> POST Response Response_json (Throw e) createUser = generic)
  /\ (forall b, isNotNull b = false -> POST Response Response_json (Return b) createUser = generic)
  /\ (forall b e,
         supplied "email" b = true -> supplied "name" b = true ->
         createUser (prop "email" b) (prop "name" b) = Throw e ->
         isAppError e = false ->
         POST Response Response_json (Return b) createUser = generic)
  /\ (forall b user,
         supplied "email" b = true -> supplied "name" b = true ->
         createUser (prop "email" b) (prop "name" b) = Return user ->
         isNotNull user = false ->
         POST Response Response_json (Return b) createUser = generic).
Proof.
  intros generic. subst generic. repeat split.
  - intros e He. unfold POST, POST_attempt. cbn [bind try_catch].
    now apply recover_unexpected.
  - intros b Hb. unfold POST, POST_attempt.
    destruct b; try discriminate Hb; reflexivity.
  - intros b e He Hn Hc Hu.
    rewrite (POST_with_both_fields b He Hn), Hc. cbn [bind try_catch].
    now apply recover_unexpected.
  - intros b user He Hn Hc Hu.
    rewrite (POST_with_both_fields b He Hn), Hc. cbn [bind].
    destruct user; try discriminate Hu; reflexivity.
Qed.

(** X24: when both fields are supplied and [createUser] returns a user,
    [createUser] has received the two field values as they were sent,
    and the answer is status 201 with the success envelope of that
    user. *)
Theorem POST_answers_201_with_the_created_user :
  forall (b user : JSValue) (r : Response),
    supplied "email" b = true -> supplied "name" b = true ->
    createUser (prop "email" b) (prop "name" b) = Return user ->
    isNotNull user = true ->
    Response_json (successResponse user) (VNumber 201) = Return r ->
    POST Response Response_json (Return b) createUser = Return r.
Proof.
  intros b user r He Hn Hc Hu Hr.
  rewrite (POST_with_both_fields b He Hn), Hc. cbn [bind].
  rewrite (member_of_present "id" user Hu). cbn [bind].
  now rewrite Hr.
Qed.

(** X25: whatever the request and [createUser] do, the outcome of the
    handler is the outcome of one [Response.json] call whose body is an
    envelope: the success envelope with status 201, or an object with
    [success: false], an [error] and a [code] and without [data]. *)
Theorem POST_always_answers_with_an_envelope :
  forall request : Completion JSValue,
    exists envelope code,
      POST Response Response_json request createUser = Response_json envelope code
      /\ ((exists user, envelope = successResponse user /\ code = VNumber 201)
          \/ (keys envelope = ["success"; "error"; "code"]
              /\ field "success" envelope = Some (VBool false)
              /\ has_field "data" envelope = false)).
Proof.
  intros request.
  assert (Hrec : forall e,
             exists envelope code,
               POST_recover Response Response_json e = Response_json envelope code
               /\ keys envelope = ["success"; "error"; "code"]
               /\ field "success" envelope = Some (VBool false)
               /\ has_field "data" envelope = false).
  { intros e. unfold POST_recover.
    destruct (isAppError e); eexists; eexists; repeat split. }
  assert (Hthrow : forall e,
             exists envelope code,
               try_catch (Throw e) (POST_recover Response Response_json)
               = Response_json envelope code
               /\ ((exists user, envelope = successResponse user
                                 /\ code = VNumber 201)
                   \/ (keys envelope = ["success"; "error"; "code"]
                       /\ field "success" envelope = Some (VBool false)
                       /\ has_field "data" envelope = false))).
  { intros e. simpl. destruct (Hrec e) as [env [c [E H]]].
    exists env, c. split; [exact E|now right]. }
  unfold POST, POST_attempt.
  destruct request as [b|e]; simpl; [|apply Hthrow].
  destruct (member "email" b) as [be|e]; simpl; [|apply Hthrow].
  destruct (validateRequired be "email") as [email|e]; simpl; [|apply Hthrow].
  destruct (member "name" b) as [bn|e]; simpl; [|apply Hthrow].
  destruct (validateRequired bn "name") as [name|e]; simpl; [|apply Hthrow].
  destruct (createUser email name) as [user|e]; simpl; [|apply Hthrow].
  destruct (member "id" user) as [i|e]; simpl; [|apply Hthrow].
  destruct (Response_json (successResponse user) (VNumber 201)) as [r|e] eqn:Hr.
  - exists (successResponse user), (VNumber 201). split; [now rewrite Hr|].
    left. now exists user.
  - apply Hthrow.
Qed.

End HandlerFacts.

(** X21, witness: a body with a name but no email. *)
Lemma POST_answers_400_for_a_missing_field_example :
  Boundary.POST Boundary.Response_pair Boundary.Response_json_pair
    (Return (VObject CObject [("name", VString "Ann")]))
    Boundary.createUser_fresh
  = Return (errorResponse "email is required" (Some "VALIDATION_ERROR"),
            VNumber 400).
Proof.
  refine (proj1 (POST_answers_400_for_a_missing_field
                   Boundary.Response_pair Boundary.Response_json_pair
                   Boundary.createUser_fresh
                   (VObject CObject [("name", VString "Ann")]) _) _);
    reflexivity.
Defined.

(** X22, witness: [createUser] reports a duplicate with [ConflictError]. *)
Lemma POST_reports_errors_of_the_taxonomy_example :
  exists message code status,
    field "message" (ConflictError "Email already registered")
    = Some (VString message)
    /\ field "code" (ConflictError "Email already registered")
       = Some (VString code)
    /\ field "statusCode" (ConflictError "Email already registered")
       = Some (VNumber status)
    /\ Boundary.POST Boundary.Response_pair Boundary.Response_json_pair
         (Return Boundary.request_of_Ann) Boundary.createUser_taken
       = Boundary.Response_json_pair (errorResponse message (Some code))
                                     (VNumber status).
Proof.
  apply (POST_reports_errors_of_the_taxonomy
           Boundary.Response_pair Boundary.Response_json_pair
           Boundary.createUser_taken Boundary.request_of_Ann CConflictError).
  - reflexivity.
  - reflexivity.
  - reflexivity.
  - apply Kinds.new_ConflictError.
Defined.

(** X24, witness. *)
Lemma POST_answers_201_with_the_created_user_example :
  Boundary.POST Boundary.Response_pair Boundary.Response_json_pair
    (Return Boundary.request_of_Ann) Boundary.createUser_fresh
  = Return (successResponse
              (VObject CObject [("id", VString "u1");
                                ("email", VString "ann@example.com");
                                ("name", VString "Ann")]),
            VNumber 201).
Proof.
  apply (POST_answers_201_with_the_created_user
           Boundary.Response_pair Boundary.Response_json_pair
           Boundary.createUser_fresh Boundary.request_of_Ann
           (VObject CObject [("id", VString "u1");
                             ("email", VString "ann@example.com");
                             ("name", VString "Ann")]));
    reflexivity.
Defined.

(* ================================================================= *)
(** ** The range a returned number lies in *)

Section RangeFacts.

Variable Number_toString : float -> string.

Lemma SFcompare_antisym (a b : spec_float) :
  SFcompare b a = option_map CompOpp (SFcompare a b).
Proof.
  destruct a as [sa|sa| |sa ma ea], b as [sb|sb| |sb mb eb]; simpl;
    try reflexivity;
    try (destruct sa; reflexivity); try (destruct sb; reflexivity);
    try (destruct sa, sb; reflexivity).
  assert (Hm : Pos.compare_cont Eq mb ma = CompOpp (Pos.compare_cont Eq ma mb))
    by (now rewrite Pos.compare_cont_antisym).
  f_equal. rewrite (Z.compare_antisym ea eb), Hm.
  destruct sa, sb; simpl; try reflexivity;
    destruct (Z.compare ea eb); simpl; try reflexivity;
    now rewrite CompOpp_involutive.
Qed.

Lemma SFcompare_defined (a b : spec_float) :
  SFcompare a b = None -> a = S754_nan \/ b = S754_nan.
Proof.
  destruct a as [sa|sa| |sa ma ea], b as [sb|sb| |sb mb eb]; simpl;
    intros H; try discriminate H; auto.
Qed.

Lemma not_nan_spec (x : float) :
  PrimFloat.is_nan x = false -> Prim2SF x <> S754_nan.
Proof.
  unfold PrimFloat.is_nan. rewrite eqb_spec. intros H E.
  rewrite E in H. discriminate H.
Qed.

(** For numbers other than NaN, "not [x < m]" is [m <= x]. *)
Lemma not_ltb_leb (x m : float) :
  PrimFloat.is_nan x = false -> PrimFloat.is_nan m = false ->
  PrimFloat.ltb x m = false -> PrimFloat.leb m x = true.
Proof.
  intros Hx Hm. rewrite ltb_spec, leb_spec. unfold SFltb, SFleb.
  rewrite (SFcompare_antisym (Prim2SF x) (Prim2SF m)).
  destruct (SFcompare (Prim2SF x) (Prim2SF m)) as [[| |]|] eqn:E; simpl;
    try reflexivity; try discriminate.
  intros _. apply SFcompare_defined in E as [E|E];
    [now apply not_nan_spec in Hx|now apply not_nan_spec in Hm].
Qed.

(** X20: a number that [validateNumberRange] returns lies within the
    bounds: it is the argument, it is not NaN, a given [min] other than
    NaN satisfies [min <= value] and a given [max] other than NaN
    satisfies [value <= max]. *)
Theorem validateNumberRange_result_is_within_bounds :
  forall (v : JSValue) (f : string) (c : NumberConstraints) (x : float),
    validateNumberRange Number_toString v f c = Return (VNumber x) ->
    v = VNumber x
    /\ PrimFloat.is_nan x = false
    /\ (forall m, min c = Some m -> PrimFloat.is_nan m = false ->
                  PrimFloat.leb m x = true)
    /\ (forall m, max c = Some m -> PrimFloat.is_nan m = false ->
                  PrimFloat.leb x m = true).
Proof.
  intros v f c x. unfold validateNumberRange.
  destruct (String.eqb (typeof v) "number") eqn:Ht; simpl; [|discriminate].
  apply typeof_number in Ht as [y ->]. simpl.
  destruct (PrimFloat.is_nan y) eqn:Hy; simpl; [discriminate|].
  destruct (violated (min c) _) eqn:E1; [discriminate|].
  destruct (violated (max c) _) eqn:E2; [discriminate|].
  intros H. injection H as <-.
  pose proof (proj1 (violated_None _ _) E1) as B1.
  pose proof (proj1 (violated_None _ _) E2) as B2.
  split; [reflexivity|]. split; [exact Hy|]. split.
  - intros m Hm Hn. apply not_ltb_leb; [exact Hy|exact Hn|exact (B1 m Hm)].
  - intros m Hm Hn. apply not_ltb_leb; [exact Hn|exact Hy|exact (B2 m Hm)].
Qed.

End RangeFacts.

(** X20, witness. *)
Lemma validateNumberRange_result_is_within_bounds_example :
  VNumber 5 = VNumber 5
  /\ PrimFloat.is_nan 5 = false
  /\ (forall m, Some 0%float = Some m -> PrimFloat.is_nan m = false ->
                PrimFloat.leb m 5 = true)
  /\ (forall m, Some 120%float = Some m -> PrimFloat.is_nan m = false ->
                PrimFloat.leb 5 m = true).
Proof.
  apply (validateNumberRange_result_is_within_bounds render_opaque
           (VNumber 5) "age"
           {| min := Some 0%float; max := Some 120%float |} 5%float).
  reflexivity.
Defined.

(* ================================================================= *)
(** ** SEO metadata *)

Section SeoFacts.

Import Seo.

Variable NEXT_PUBLIC_APP_URL : option string.

(** Case analysis on what decides the optional sections. *)
Ltac by_sections p :=
  destruct (noindex p) as [[|]|], (tags p), (authors p),
    (type p) as [[| |]|], (truthy (publishedTime p)).

Lemma if_truthy_falsy (o : option string) (f : string -> string) (d : string) :
  truthy o = false -> if_truthy o f d = d.
Proof.
  unfold truthy, if_truthy. destruct o as [s|]; [|reflexivity].
  destruct (String.eqb s ""); [reflexivity|discriminate].
Qed.

Lemma if_truthy_given (s : string) (f : string -> string) (d : string) :
  s <> EmptyString -> if_truthy (Some s) f d = f s.
Proof.
  intros Hs. unfold if_truthy.
  destruct (String.eqb_spec s ""); [contradiction|reflexivity].
Qed.

(** X26: the title and the description are the same in the three
    places they appear (top level, Open Graph, Twitter card): the title
    is the given title followed by " | " and the site name, or the site
    name alone when no title or an empty one is given; the description
    is the given one, or the site's when none or an empty one is
    given. *)
Theorem generateSEO_title_and_description_agree :
  forall props : option SEOProps,
    exists t d : string,
      at_path ["title"] (generateSEO NEXT_PUBLIC_APP_URL props)
      = Some (VString t)
      /\ at_path ["openGraph"; "title"] (generateSEO NEXT_PUBLIC_APP_URL props)
         = Some (VString t)
      /\ at_path ["twitter"; "title"] (generateSEO NEXT_PUBLIC_APP_URL props)
         = Some (VString t)
      /\ at_path ["description"] (generateSEO NEXT_PUBLIC_APP_URL props)
         = Some (VString d)
      /\ at_path ["openGraph"; "description"]
                 (generateSEO NEXT_PUBLIC_APP_URL props)
         = Some (VString d)
      /\ at_path ["twitter"; "description"]
                 (generateSEO NEXT_PUBLIC_APP_URL props)
         = Some (VString d)
      /\ (truthy (title (given props)) = false -> t = siteConfig_name)
      /\ (forall s, title (given props) = Some s -> s <> EmptyString ->
                    t = (s ++ " | " ++ siteConfig_name)%string)
      /\ (truthy (description (given props)) = false ->
          d = siteConfig_description)
      /\ (forall s, description (given props) = Some s -> s <> EmptyString ->
                    d = s).
Proof.
  intros props. unfold generateSEO. set (p := given props).
  exists (if_truthy (title p)
            (fun s => s ++ " | " ++ siteConfig_name)%string siteConfig_name),
    (or_else (description p) siteConfig_description).
  repeat match goal with |- _ /\ _ => split end;
    try (by_sections p; reflexivity).
  - apply if_truthy_falsy.
  - intros s -> Hs. now rewrite if_truthy_given.
  - apply if_truthy_falsy.
  - intros s -> Hs. unfold or_else. now rewrite if_truthy_given.
Qed.

(** X27: the canonical URL and the Open Graph URL are the same: the
    site URL followed by the given path, or the site URL alone when no
    path or an empty one is given; the site URL is the environment's,
    or "http://localhost:3000" when that is unset or empty.  The Open
    Graph image and the Twitter image are the same: the given image as
    it is (it is not prefixed), or the site's "/og-image.jpg". *)
Theorem generateSEO_urls_and_images_agree :
  forall props : option SEOProps,
    exists u i : string,
      at_path ["alternates"; "canonical"]
              (generateSEO NEXT_PUBLIC_APP_URL props)
      = Some (VString u)
      /\ at_path ["openGraph"; "url"] (generateSEO NEXT_PUBLIC_APP_URL props)
         = Some (VString u)
      /\ (truthy (url (given props)) = false ->
          u = siteConfig_url NEXT_PUBLIC_APP_URL)
      /\ (forall s, url (given props) = Some s -> s <> EmptyString ->
                    u = (siteConfig_url NEXT_PUBLIC_APP_URL ++ s)%string)
      /\ (match at_path ["openGraph"; "images"]
                        (generateSEO NEXT_PUBLIC_APP_URL props) with
          | Some images =>
              match first_item images with
              | Some img => field "url" img
              | None => None
              end
          | None => None
          end = Some (VString i))
      /\ at_path ["twitter"; "images"] (generateSEO NEXT_PUBLIC_APP_URL props)
         = Some (VArray [VString i])
      /\ (truthy (image (given props)) = false ->
          i = (siteConfig_url NEXT_PUBLIC_APP_URL ++ "/og-image.jpg")%string)
      /\ (forall s, image (given props) = Some s -> s <> EmptyString -> i = s)
      /\ (truthy NEXT_PUBLIC_APP_URL = false ->
          siteConfig_url NEXT_PUBLIC_APP_URL = "http://localhost:3000").
Proof.
  intros props. unfold generateSEO. set (p := given props).
  exists (if_truthy (url p)
            (fun s => siteConfig_url NEXT_PUBLIC_APP_URL ++ s)%string
            (siteConfig_url NEXT_PUBLIC_APP_URL)),
    (or_else (image p)
       (siteConfig_url NEXT_PUBLIC_APP_URL ++ siteConfig_ogImage)%string).
  repeat match goal with |- _ /\ _ => split end;
    try (by_sections p; reflexivity).
  - apply if_truthy_falsy.
  - intros s -> Hs. now rewrite if_truthy_given.
  - apply if_truthy_falsy.
  - intros s -> Hs. unfold or_else. now rewrite if_truthy_given.
  - apply if_truthy_falsy.
Qed.

(** X28: the optional sections appear exactly when asked for: [robots]
    (with [index] and [follow] false) when [noindex] is true,
    [keywords] when [tags] are given, even an empty list, and inside
    Open Graph [publishedTime] when the type is "article" and a
    non-empty time is given, [authors] when the type is "article" and
    authors are given; the type is "website" unless given. *)
Theorem generateSEO_optional_sections :
  forall props : option SEOProps,
    let p := given props in
    let article :=
      match type p with Some t => is_article t | None => false end in
    has_field "robots" (generateSEO NEXT_PUBLIC_APP_URL props)
    = match noindex p with Some b => b | None => false end
    /\ (noindex p = Some true ->
        at_path ["robots"] (generateSEO NEXT_PUBLIC_APP_URL props)
        = Some (VObject CObject [("index", VBool false); ("follow", VBool false)]))
    /\ at_path ["keywords"] (generateSEO NEXT_PUBLIC_APP_URL props)
       = option_map strings (tags p)
    /\ at_path ["openGraph"; "publishedTime"]
               (generateSEO NEXT_PUBLIC_APP_URL props)
       = (if article && truthy (publishedTime p)
          then option_map VString (publishedTime p) else None)
    /\ at_path ["openGraph"; "authors"] (generateSEO NEXT_PUBLIC_APP_URL props)
       = (if article then option_map strings (authors p) else None)
    /\ at_path ["openGraph"; "type"] (generateSEO NEXT_PUBLIC_APP_URL props)
       = Some (VString (match type p with
                        | Some t => PageType_string t
                        | None => "website"
                        end)).
Proof.
  intros props p article. subst p article. unfold generateSEO.
  set (p := given props).
  repeat match goal with |- _ /\ _ => split end.
  - by_sections p; reflexivity.
  - intros Hn. rewrite Hn.
    destruct (tags p), (authors p), (type p) as [[| |]|],
      (truthy (publishedTime p)); reflexivity.
  - by_sections p; reflexivity.
  - unfold text, or_else, if_truthy, truthy.
    destruct (publishedTime p) as [s|];
      [destruct (String.eqb s "")|];
      destruct (noindex p) as [[|]|], (tags p), (authors p),
        (type p) as [[| |]|]; reflexivity.
  - by_sections p; reflexivity.
  - by_sections p; reflexivity.
Qed.

Lemma truthy_drop_empty (o : option string) :
  truthy (drop_empty o) = truthy o.
Proof. unfold drop_empty. now destruct (truthy o) eqn:E. Qed.

Lemma if_truthy_drop_empty (o : option string) (f : string -> string)
      (d : string) :
  if_truthy (drop_empty o) f d = if_truthy o f d.
Proof.
  unfold drop_empty. destruct (truthy o) eqn:E; [reflexivity|].
  now rewrite (if_truthy_falsy o f d E).
Qed.

(** X29: an empty string is read as an omitted property: giving ""
    for [title], [description], [image], [url] or [publishedTime]
    produces the same metadata as leaving it out, and calling without
    an argument is calling with [{}]. *)
Theorem generateSEO_reads_empty_strings_as_omitted :
  forall p : SEOProps,
    generateSEO NEXT_PUBLIC_APP_URL (Some p)
    = generateSEO NEXT_PUBLIC_APP_URL (Some (without_empty_strings p))
    /\ generateSEO NEXT_PUBLIC_APP_URL None
       = generateSEO NEXT_PUBLIC_APP_URL (Some no_props).
Proof.
  intros p. split; [|reflexivity].
  unfold generateSEO, without_empty_strings, given, text, or_else. simpl.
  now rewrite !if_truthy_drop_empty, !truthy_drop_empty.
Qed.

(** X30: the metadata of a blog post is that of an article at
    "/blog/<slug>": the type is "article", the canonical and Open Graph
    URLs are the site URL followed by "/blog/" and the slug, there is
    no [robots] section, the published time appears unless it is empty,
    and authors and keywords appear when given. *)
Theorem generateBlogPostSEO_is_an_article_under_blog :
  forall post : BlogPost,
    let m := generateBlogPostSEO NEXT_PUBLIC_APP_URL post in
    let u := (siteConfig_url NEXT_PUBLIC_APP_URL ++ "/blog/" ++ post_slug post)%string in
    at_path ["openGraph"; "type"] m = Some (VString "article")
    /\ at_path ["alternates"; "canonical"] m = Some (VString u)
    /\ at_path ["openGraph"; "url"] m = Some (VString u)
    /\ has_field "robots" m = false
    /\ at_path ["openGraph"; "publishedTime"] m
       = (if String.eqb (post_publishedTime post) "" then None
          else Some (VString (post_publishedTime post)))
    /\ at_path ["openGraph"; "authors"] m = option_map strings (post_authors post)
    /\ at_path ["keywords"] m = option_map strings (post_tags post).
Proof.
  intros post m u. subst m u. unfold generateBlogPostSEO, generateSEO, given.
  cbn [title description image url type publishedTime authors tags noindex].
  unfold text, or_else, truthy. cbn [if_truthy].
  destruct (String.eqb (post_publishedTime post) "");
    destruct (post_authors post), (post_tags post);
    repeat split.
Qed.

End SeoFacts.

(* ================================================================= *)
(** ** Examples *)

(** X12, witness: "https://example.com" parses and is returned as it
    was given. *)
Lemma validateUrl_returns_the_input_example :
  validateUrl URL_schematic (VString "https://example.com")
  = Return (VString "https://example.com").
Proof.
  apply (proj2 (validateUrl_returns_the_input_iff_it_parses URL_schematic
                  (VString "https://example.com")
                  (VString "https://example.com"))).
  exists "https://example.com". split; [reflexivity|]. split; [reflexivity|].
  eexists. reflexivity.
Defined.

(** X13, witness: "abcdefgh" has 8 code units, within [8, 100]. *)
Lemma validateStringLength_within_bounds_example :
  validateStringLength render_opaque (VString "abcdefgh") "pw"
    {| min := Some 8%float; max := Some 100%float |}
  = Return (VString "abcdefgh").
Proof.
  apply (proj2 (proj1 (validateStringLength_returns_iff_within_bounds
                         render_opaque (VString "abcdefgh") "pw"
                         {| min := Some 8%float; max := Some 100%float |}
                         (VString "abcdefgh")))).
  split; [reflexivity|]. exists "abcdefgh". split; [reflexivity|].
  split; intros m E; injection E as <-; reflexivity.
Defined.

(** X14, witness: "admin" is one of the three roles. *)
Lemma validateEnum_allowed_example :
  validateEnum (VString "admin") "role" ["admin"; "user"; "guest"]
  = Return (VString "admin").
Proof.
  apply (proj2 (proj1 (validateEnum_returns_iff_allowed
                         (VString "admin") "role" ["admin"; "user"; "guest"]
                         (VString "admin")))).
  split; [reflexivity|]. exists "admin". split; [reflexivity|].
  left. reflexivity.
Defined.

(** X15, witness: an array of two items, within [1, 2]. *)
Lemma validateArray_within_bounds_example :
  validateArray render_opaque (VArray [VNumber 1; VNumber 2]) "tags"
    (Some {| minLength := Some 1%float; maxLength := Some 2%float |})
  = Return (VArray [VNumber 1; VNumber 2]).
Proof.
  apply (proj2 (proj1 (validateArray_returns_iff_within_bounds
                         render_opaque (VArray [VNumber 1; VNumber 2]) "tags"
                         (Some {| minLength := Some 1%float;
                                  maxLength := Some 2%float |})
                         (VArray [VNumber 1; VNumber 2])))).
  split; [reflexivity|]. exists [VNumber 1; VNumber 2]. split; [reflexivity|].
  split; intros m E; injection E as <-; reflexivity.
Defined.

(** X17, witness: with NaN bounds the number 5 is returned. *)
Lemma NaN_bounds_are_never_violated_example :
  validateNumberRange render_opaque (VNumber 5) "age"
    {| min := Some PrimFloat.nan; max := Some PrimFloat.nan |}
  = Return (VNumber 5).
Proof.
  apply (proj1 (NaN_bounds_are_never_violated render_opaque "age")).
  reflexivity.
Defined.

(** X23, witness: a [createUser] that returns [null] is answered with
    the generic 500. *)
Lemma POST_masks_unexpected_failures_example :
  Boundary.POST Boundary.Response_pair Boundary.Response_json_pair
    (Return Boundary.request_of_Ann) (fun _ _ => Return VNull)
  = Return (errorResponse "Internal server error" None, VNumber 500).
Proof.
  apply (proj2 (proj2 (proj2
           (POST_masks_unexpected_failures
              Boundary.Response_pair Boundary.Response_json_pair
              (fun _ _ => Return VNull))))
           Boundary.request_of_Ann VNull);
    reflexivity.
Defined.
